(** * Wardrowbe frontend: the [useAuth] hook and the invite page

    A shallow embedding of [frontend/lib/hooks/use-auth.ts] (the
    authentication hook) and of the invite page that follows it in the same
    source file, with the properties of the specification stated over it.

    Conventions of the embedding:
    - a JavaScript string is a [string] holding its UTF-8 bytes (the values
      read from [URLSearchParams] are well-formed, so this loses nothing);
    - a value that may be [null] or [undefined] is an [option];
    - the mutable ref, the pending sign-out promises and the calls made to
      collaborators are fields of an explicit runtime state;
    - the session provider, the query layer and the router are the
      environment: what they hand to the code is an input, what the code
      asks of them is an output. *)

From Stdlib Require Import ZArith List String Ascii Bool Arith Lia.
Import ListNotations.
Open Scope string_scope.

(** ** JavaScript values as the code tests them *)

Module JS.

(** [ToBoolean] on a value of type [string | null | undefined]: the empty
    string is falsy like [null] and [undefined]. *)
Definition truthy (v : option string) : bool :=
  match v with
  | None => false
  | Some EmptyString => false
  | Some (String _ _) => true
  end.

(** [ToBoolean] on a value of type [object | undefined]: every object is
    truthy. *)
Definition truthyObject {A : Type} (v : option A) : bool :=
  match v with
  | None => false
  | Some _ => true
  end.

(** Modelled from the spec: class [ApiError] of [lib/api], of which only the
    import is among the sources; a typed error carrying an HTTP status code
    and a message. *)
Record ApiError : Type := { status : Z; message : string }.

(** A caught value of type [unknown], as [instanceof ApiError] sees it. *)
Inductive Thrown : Type :=
| IsApiError (e : ApiError)
| NotApiError (description : string).

(** An error object held by the query layer.  [oid] is the identity of the
    object: React compares effect dependencies with [Object.is]. *)
Record ErrorObject : Type := { oid : nat; thrown : Thrown }.

Definition ApiError_eqb (a b : ApiError) : bool :=
  Z.eqb (status a) (status b) && String.eqb (message a) (message b).

Definition Thrown_eqb (a b : Thrown) : bool :=
  match a, b with
  | IsApiError x, IsApiError y => ApiError_eqb x y
  | NotApiError x, NotApiError y => String.eqb x y
  | _, _ => false
  end.

(** [Object.is] on two values of type [Error | null]. *)
Definition sameError (a b : option ErrorObject) : bool :=
  match a, b with
  | None, None => true
  | Some x, Some y => Nat.eqb (oid x) (oid y) && Thrown_eqb (thrown x) (thrown y)
  | _, _ => false
  end.

End JS.

(** ** The session provider (next-auth) as the hook reads it *)

Inductive SessionStatus : Type := loading | authenticated | unauthenticated.

Definition SessionStatus_eqb (a b : SessionStatus) : bool :=
  match a, b with
  | loading, loading => true
  | authenticated, authenticated => true
  | unauthenticated, unauthenticated => true
  | _, _ => false
  end.

Record Session : Type := { accessToken : option string }.

(** ** The query layer as the hook uses it *)

Module Query.

(** The options object passed to [useQuery]. *)
Record Options : Type := {
  queryKey : list string;
  enabled : bool;
  retry : bool;
  staleTime : Z;
  refetchOnWindowFocus : bool
}.

(** The fields of the object returned by [useQuery] that the hook reads. *)
Record Result (T : Type) : Type := {
  data : option T;
  error : option JS.ErrorObject;
  isPending : bool;
  isSuccess : bool
}.

Arguments data {T} _.
Arguments error {T} _.
Arguments isPending {T} _.
Arguments isSuccess {T} _.

(** The query layer never reports a query as pending and successful at
    once. *)
Definition consistent {T : Type} (q : Result T) : bool :=
  negb (isPending q && isSuccess q).

End Query.

(** ** [useAuth] *)

Module AuthView.

(** The object returned by [useAuth]. *)
Record t (T : Type) : Type := {
  user : option T;
  isAuthenticated : bool;
  isLoading : bool;
  error : option JS.ErrorObject;
  session : option Session;
  sessionStatus : SessionStatus
}.

Arguments user {T} _.
Arguments isAuthenticated {T} _.
Arguments isLoading {T} _.
Arguments error {T} _.
Arguments session {T} _.
Arguments sessionStatus {T} _.

End AuthView.

Section UseAuth.

(** [UserProfile] is declared in [./use-user]; the hook never looks inside
    it. *)
Variable UserProfile : Type.

(** [session?.accessToken] *)
Definition sessionAccessToken (session : option Session) : option string :=
  match session with
  | None => None
  | Some s => accessToken s
  end.

(** [const hasToken = !!session?.accessToken] *)
Definition hasToken (session : option Session) : bool :=
  JS.truthy (sessionAccessToken session).

(** The options of [userQuery]. *)
Definition userQuery (status : SessionStatus) (session : option Session)
  : Query.Options :=
  {| Query.queryKey := ["auth-user"];
     Query.enabled := SessionStatus_eqb status authenticated && hasToken session;
     Query.retry := false;
     Query.staleTime := 5 * 60 * 1000;
     Query.refetchOnWindowFocus := false |}.

(** [userQuery.isSuccess && !!userQuery.data] *)
Definition isAuthenticated (q : Query.Result UserProfile) : bool :=
  Query.isSuccess q && JS.truthyObject (Query.data q).

(** [status === 'loading' || (status === 'authenticated' && userQuery.isPending)] *)
Definition isLoading (status : SessionStatus) (q : Query.Result UserProfile) : bool :=
  SessionStatus_eqb status loading
  || (SessionStatus_eqb status authenticated && Query.isPending q).

(** The value returned by one call of [useAuth]. *)
Definition useAuth (status : SessionStatus) (session : option Session)
           (q : Query.Result UserProfile) : AuthView.t UserProfile :=
  {| AuthView.user := Query.data q;
     AuthView.isAuthenticated := isAuthenticated q;
     AuthView.isLoading := isLoading status q;
     AuthView.error := Query.error q;
     AuthView.session := session;
     AuthView.sessionStatus := status |}.

End UseAuth.

Arguments isAuthenticated {UserProfile} q.
Arguments isLoading {UserProfile} status q.
Arguments useAuth {UserProfile} status session q.

(** ** The reconciliation effect and the sign-out promise *)

(** The dependency array of the effect: [[userQuery.error, status, hasToken]]. *)
Record Deps : Type := {
  depError : option JS.ErrorObject;
  depStatus : SessionStatus;
  depHasToken : bool
}.

(** What one mounted instance of the hook can change: its ref, the
    dependencies React remembers for its effect, the token handed to the API
    client, and the sign-out calls made to the session provider. *)
Record Runtime : Type := {
  signingOut : bool;               (* signingOut.current *)
  committedDeps : option Deps;     (* None until the first effect run *)
  apiAccessToken : option string;  (* last argument of setAccessToken *)
  signOutCalls : nat;              (* calls of signOut so far *)
  signOutPending : nat             (* promises of signOut not yet settled *)
}.

(** [useRef(false)], nothing rendered yet. *)
Definition initialRuntime : Runtime :=
  {| signingOut := false; committedDeps := None; apiAccessToken := None;
     signOutCalls := 0; signOutPending := 0 |}.

Definition set_signingOut (b : bool) (r : Runtime) : Runtime :=
  {| signingOut := b; committedDeps := committedDeps r;
     apiAccessToken := apiAccessToken r;
     signOutCalls := signOutCalls r; signOutPending := signOutPending r |}.

Definition set_committedDeps (d : Deps) (r : Runtime) : Runtime :=
  {| signingOut := signingOut r; committedDeps := Some d;
     apiAccessToken := apiAccessToken r;
     signOutCalls := signOutCalls r; signOutPending := signOutPending r |}.

(** [setAccessToken(token)] *)
Definition setAccessToken (token : string) (r : Runtime) : Runtime :=
  {| signingOut := signingOut r; committedDeps := committedDeps r;
     apiAccessToken := Some token;
     signOutCalls := signOutCalls r; signOutPending := signOutPending r |}.

(** [signOut({ redirect: false })]: one more call, one more pending promise. *)
Definition signOut (r : Runtime) : Runtime :=
  {| signingOut := signingOut r; committedDeps := committedDeps r;
     apiAccessToken := apiAccessToken r;
     signOutCalls := S (signOutCalls r); signOutPending := S (signOutPending r) |}.

(** [userQuery.error instanceof ApiError && userQuery.error.status === 401] *)
Definition isUnauthorized (err : option JS.ErrorObject) : bool :=
  match err with
  | Some {| JS.thrown := JS.IsApiError e |} => Z.eqb (JS.status e) 401
  | _ => false
  end.

(** The body of the effect. *)
Definition reconcileEffect (err : option JS.ErrorObject) (status : SessionStatus)
           (hasTok : bool) (r : Runtime) : Runtime :=
  if signingOut r then r
  else if isUnauthorized err then signOut (set_signingOut true r)
  else if SessionStatus_eqb status authenticated && negb hasTok
       then signOut (set_signingOut true r)
  else r.

(** React runs an effect after the first render and after every render whose
    dependency array differs from the previous one under [Object.is]. *)
Definition depsChanged (old : option Deps) (d : Deps) : bool :=
  match old with
  | None => true
  | Some o =>
      negb (JS.sameError (depError o) (depError d)
            && SessionStatus_eqb (depStatus o) (depStatus d)
            && Bool.eqb (depHasToken o) (depHasToken d))
  end.

(** [if (session?.accessToken) setAccessToken(session.accessToken)] *)
Definition adoptToken (session : option Session) (r : Runtime) : Runtime :=
  match sessionAccessToken session with
  | Some tok => if JS.truthy (Some tok) then setAccessToken tok r else r
  | None => r
  end.

(** One render of the hook followed by the commit of its effect. *)
Definition renderHook (status : SessionStatus) (session : option Session)
           (err : option JS.ErrorObject) (r : Runtime) : Runtime :=
  let r1 := adoptToken session r in
  let d := {| depError := err; depStatus := status; depHasToken := hasToken session |} in
  if depsChanged (committedDeps r1) d
  then reconcileEffect err status (hasToken session) (set_committedDeps d r1)
  else r1.

(** The promise returned by [signOut] settles.  The callback given to [then]
    is the fulfilment handler; there is no rejection handler. *)
Definition signOutFulfilled (r : Runtime) : Runtime :=
  match signOutPending r with
  | O => r
  | S n =>
      {| signingOut := false; committedDeps := committedDeps r;
         apiAccessToken := apiAccessToken r;
         signOutCalls := signOutCalls r; signOutPending := n |}
  end.

Definition signOutRejected (r : Runtime) : Runtime :=
  match signOutPending r with
  | O => r
  | S n =>
      {| signingOut := signingOut r; committedDeps := committedDeps r;
         apiAccessToken := apiAccessToken r;
         signOutCalls := signOutCalls r; signOutPending := n |}
  end.

(** What can happen to a mounted instance, one task of the UI thread at a
    time. *)
Inductive Event : Type :=
| Rendered (status : SessionStatus) (session : option Session)
           (err : option JS.ErrorObject)
| SignOutFulfilled
| SignOutRejected.

Definition step (r : Runtime) (e : Event) : Runtime :=
  match e with
  | Rendered status session err => renderHook status session err r
  | SignOutFulfilled => signOutFulfilled r
  | SignOutRejected => signOutRejected r
  end.

Definition run (r : Runtime) (trace : list Event) : Runtime :=
  fold_left step trace r.

(** ** [encodeURIComponent] *)

Module URI.

Definition between (lo hi n : nat) : bool := Nat.leb lo n && Nat.leb n hi.

(** The characters [encodeURIComponent] leaves alone:
    [A-Z a-z 0-9 - _ . ! ~ * ' ( )]. *)
Definition unreserved (c : ascii) : bool :=
  let n := nat_of_ascii c in
  between 65 90 n || between 97 122 n || between 48 57 n
  || existsb (Ascii.eqb c) ["-"; "_"; "."; "!"; "~"; "*"; "'"; "("; ")"]%char.

(** One upper-case hexadecimal digit. *)
Definition hexDigit (n : nat) : ascii :=
  if Nat.ltb n 10 then ascii_of_nat (48 + n) else ascii_of_nat (55 + n).

(** The escape [%XY] of one byte. *)
Definition escape (c : ascii) (rest : string) : string :=
  let n := nat_of_ascii c in
  String "%" (String (hexDigit (n / 16)) (String (hexDigit (n mod 16)) rest)).

(** Every byte of the UTF-8 form of the argument is kept if it is an
    unreserved character and escaped otherwise. *)
Fixpoint encodeURIComponent (s : string) : string :=
  match s with
  | EmptyString => EmptyString
  | String c rest =>
      if unreserved c then String c (encodeURIComponent rest)
      else escape c (encodeURIComponent rest)
  end.

(** The value of a hexadecimal digit, in either case. *)
Definition hexValue (c : ascii) : option nat :=
  let n := nat_of_ascii c in
  if between 48 57 n then Some (n - 48)
  else if between 65 70 n then Some (n - 55)
  else if between 97 102 n then Some (n - 87)
  else None.

(** Percent-decoding, the reading of a query parameter: the inverse against
    which the encoding is checked. *)
Fixpoint percentDecode (s : string) : option string :=
  match s with
  | EmptyString => Some EmptyString
  | String c rest =>
      if Ascii.eqb c "%" then
        match rest with
        | String h (String l rest') =>
            match hexValue h, hexValue l, percentDecode rest' with
            | Some x, Some y, Some d => Some (String (ascii_of_nat (16 * x + y)) d)
            | _, _, _ => None
            end
        | _ => None
        end
      else option_map (String c) (percentDecode rest)
  end.

End URI.

(** ** The invite page *)

Module Invite.

(** What the page asks of the router and of the toaster. *)
Inductive Command : Type :=
| RouterReplace (href : string)
| RouterPush (href : string)
| ToastSuccess (text : string).

Definition isNavigation (c : Command) : bool :=
  match c with
  | RouterReplace _ | RouterPush _ => true
  | ToastSuccess _ => false
  end.

(** The part of the join response the page reads. *)
Record JoinResult : Type := { family_name : string }.

(** How the promise of [joinByToken.mutateAsync(token)] settles. *)
Inductive Settled : Type :=
| Resolved (result : JoinResult)
| Rejected (reason : JS.Thrown).

(** The fields of [joinByToken] the page reads. *)
Record Mutation : Type := {
  isError : bool;
  error : option JS.Thrown;
  isPending : bool;
  isSuccess : bool
}.

(** Modelled from the spec: [useJoinFamilyByToken] of [lib/hooks/use-family],
    of which only the import is among the sources.  The join is a single
    asynchronous call; before it the mutation is idle, while it is in flight
    the mutation is pending, and after it the mutation holds the outcome. *)
Definition idle : Mutation :=
  {| isError := false; error := None; isPending := false; isSuccess := false |}.

Definition inFlight : Mutation :=
  {| isError := false; error := None; isPending := true; isSuccess := false |}.

Definition settled (o : Settled) : Mutation :=
  match o with
  | Resolved _ =>
      {| isError := false; error := None; isPending := false; isSuccess := true |}
  | Rejected reason =>
      {| isError := true; error := Some reason; isPending := false; isSuccess := false |}
  end.

(** [getErrorMessage(error: unknown)]; [None] is [null]. *)
Definition getErrorMessage (error : option JS.Thrown) : string :=
  match error with
  | Some (JS.IsApiError e) =>
      if Z.eqb (JS.status e) 404 then "This invite link is invalid or has expired."
      else if Z.eqb (JS.status e) 403 then "This invite was sent to a different email address."
      else if Z.eqb (JS.status e) 409 then "You are already in a family."
      else "Something went wrong. Please try again."
  | _ => "Something went wrong. Please try again."
  end.

(** A value of type [string | null] inside a template literal. *)
Definition interpolate (v : option string) : string :=
  match v with
  | Some s => s
  | None => "null"
  end.

(** The effect of [InviteContent]; [token] is [searchParams.get('token')]. *)
Definition redirectEffect (token : option string) (status : SessionStatus)
  : list Command :=
  if negb (JS.truthy token) then [RouterReplace "/dashboard/family"]
  else if SessionStatus_eqb status unauthenticated
  then [RouterReplace
          ("/login?callbackUrl="
           ++ URI.encodeURIComponent ("/invite?token=" ++ interpolate token))]
  else [].

(** What [InviteContent] renders. *)
Inductive View : Type :=
| Nothing
| Spinner
| InvitationCard (errorText : option string)
                 (acceptDisabled : bool) (acceptSpinner : bool).

Definition InviteContent (token : option string) (status : SessionStatus)
           (joinByToken : Mutation) : View :=
  if negb (JS.truthy token) then Nothing
  else if SessionStatus_eqb status loading
          || SessionStatus_eqb status unauthenticated then Spinner
  else InvitationCard
         (if isError joinByToken then Some (getErrorMessage (error joinByToken))
          else None)
         (isPending joinByToken || isSuccess joinByToken)
         (isPending joinByToken).

(** What [handleAccept] does once the join call has settled. *)
Definition handleAccept (outcome : Settled) : list Command :=
  match outcome with
  | Resolved result =>
      [ToastSuccess ("Joined " ++ family_name result ++ "!");
       RouterPush "/dashboard/family"]
  | Rejected _ => []
  end.

(** A page load: the first render and the effect that follows it. *)
Definition pageLoad (token : option string) (status : SessionStatus)
  : View * list Command :=
  (InviteContent token status idle, redirectEffect token status).

End Invite.

(** ** Named inputs used in the statements below *)

(** A session that is authenticated but carries no access token. *)
Definition tokenlessSession : option Session := Some {| accessToken := None |}.

(** A session that carries an access token. *)
Definition tokenSession : option Session := Some {| accessToken := Some "tok" |}.

(** The error object of a profile fetch answered with 401. *)
Definition unauthorizedError : option JS.ErrorObject :=
  Some {| JS.oid := 1;
          JS.thrown := JS.IsApiError {| JS.status := 401; JS.message := "Unauthorized" |} |}.

(** A profile fetched earlier and still held by the query layer. *)
Definition cachedProfile : Query.Result string :=
  {| Query.data := Some "profile"; Query.error := None;
     Query.isPending := false; Query.isSuccess := true |}.

(** A profile fetch that has not answered yet. *)
Definition pendingFetch : Query.Result string :=
  {| Query.data := None; Query.error := None;
     Query.isPending := true; Query.isSuccess := false |}.

(** What can follow the first render of the hook while the session provider
    and the query layer keep handing it the same values. *)
Inductive Later : Type := RenderAgain | Fulfil | Reject.

Definition laterEvent (status : SessionStatus) (session : option Session)
           (err : option JS.ErrorObject) (l : Later) : Event :=
  match l with
  | RenderAgain => Rendered status session err
  | Fulfil => SignOutFulfilled
  | Reject => SignOutRejected
  end.

Definition stays (status : SessionStatus) (session : option Session)
           (err : option JS.ErrorObject) (after : list Later) : list Event :=
  Rendered status session err :: map (laterEvent status session err) after.

(** The sign-out calls one run of the effect adds. *)
Definition issuedBy (err : option JS.ErrorObject) (status : SessionStatus)
           (hasTok : bool) (r : Runtime) : nat :=
  signOutCalls (reconcileEffect err status hasTok r) - signOutCalls r.

(** The HTTP status a failure carries, if it carries one. *)
Definition httpStatus (reason : JS.Thrown) : option Z :=
  match reason with
  | JS.IsApiError e => Some (JS.status e)
  | JS.NotApiError _ => None
  end.

(** The message table of the specification: 404, 403, 409, else generic. *)
Definition specifiedMessage (code : option Z) : string :=
  match code with
  | Some 404%Z => "This invite link is invalid or has expired."
  | Some 403%Z => "This invite was sent to a different email address."
  | Some 409%Z => "You are already in a family."
  | _ => "Something went wrong. Please try again."
  end.

(** A failure the message table has no entry for. *)
Definition unlisted (error : option JS.Thrown) : Prop :=
  match error with
  | Some (JS.IsApiError e) =>
      JS.status e <> 404%Z /\ JS.status e <> 403%Z /\ JS.status e <> 409%Z
  | _ => True
  end.

(** The single-flight invariant: at most one sign-out promise is pending, and
    while one is pending the guard is set. *)
Definition singleFlight (r : Runtime) : Prop :=
  signOutPending r <= 1 /\ (signingOut r = false -> signOutPending r = 0).

(** The guard is set although no sign-out is pending. *)
Definition stuck (r : Runtime) : Prop :=
  signingOut r = true /\ signOutPending r = 0.

(** The dependencies the effect sees in one render. *)
Definition depsOf (status : SessionStatus) (session : option Session)
           (err : option JS.ErrorObject) : Deps :=
  {| depError := err; depStatus := status; depHasToken := hasToken session |}.

(** ** The hook over a whole trace *)

(** The access token the renders of a trace leave with the API client: the
    last non-empty one, or what was there before. *)
Fixpoint lastToken (trace : list Event) (before : option string) : option string :=
  match trace with
  | [] => before
  | Rendered _ session _ :: rest =>
      lastToken rest (if hasToken session then sessionAccessToken session else before)
  | _ :: rest => lastToken rest before
  end.

(** A render that gives the effect no reason to sign out: no 401, and not an
    authenticated session without a token. *)
Definition quiet (e : Event) : bool :=
  match e with
  | Rendered status session err =>
      negb (isUnauthorized err)
      && negb (SessionStatus_eqb status authenticated && negb (hasToken session))
  | _ => true
  end.

Definition isRejection (e : Event) : bool :=
  match e with
  | SignOutRejected => true
  | _ => false
  end.

Definition isFulfilment (e : Event) : bool :=
  match e with
  | SignOutFulfilled => true
  | _ => false
  end.

(** ** The invite page over its lifetime *)

(** [InvitePage]: the [Suspense] boundary shows its fallback, the same
    indicator as the loading view, while [InviteContent] is suspended. *)
Definition InvitePage (suspended : bool) (token : option string)
           (status : SessionStatus) (joinByToken : Invite.Mutation) : Invite.View :=
  if suspended then Invite.Spinner
  else Invite.InviteContent token status joinByToken.

(** [Object.is] on two values of type [string | null]. *)
Definition sameToken (a b : option string) : bool :=
  match a, b with
  | None, None => true
  | Some x, Some y => String.eqb x y
  | _, _ => false
  end.

(** One mounted invite page: the dependencies [[status, router, token]] of
    the last effect run (the router object is stable) and what the effect
    has asked of the router so far. *)
Record Page : Type := {
  pageDeps : option (SessionStatus * option string);
  navigations : list Invite.Command
}.

Definition initialPage : Page := {| pageDeps := None; navigations := [] |}.

Definition pageDepsChanged (old : option (SessionStatus * option string))
           (status : SessionStatus) (token : option string) : bool :=
  match old with
  | None => true
  | Some (s, t) => negb (SessionStatus_eqb s status && sameToken t token)
  end.

(** One render of [InviteContent] followed by the commit of its effect. *)
Definition renderPage (token : option string) (p : Page) (status : SessionStatus)
  : Page :=
  if pageDepsChanged (pageDeps p) status token
  then {| pageDeps := Some (status, token);
          navigations := navigations p ++ Invite.redirectEffect token status |}
  else p.

(** The page rendered once for each session status the provider reports. *)
Definition pageRun (token : option string) (statuses : list SessionStatus) : Page :=
  fold_left (renderPage token) statuses initialPage.

(** The login redirect for a token. *)
Definition loginRedirect (token : string) : Invite.Command :=
  Invite.RouterReplace
    ("/login?callbackUrl=" ++ URI.encodeURIComponent ("/invite?token=" ++ token)).

(** The characters that delimit the parts of a URL and of its query. *)
Definition queryDelimiters : list ascii :=
  ["&"; "#"; "="; "?"; "/"; " "; "+"; ";"; ":"; "@"]%char.

Definition isDelimiter (c : ascii) : bool := existsb (Ascii.eqb c) queryDelimiters.

(** The four messages [getErrorMessage] can return. *)
Definition knownMessages : list string :=
  ["This invite link is invalid or has expired.";
   "This invite was sent to a different email address.";
   "You are already in a family.";
   "Something went wrong. Please try again."].

(** A session with a token whose profile fetch fails with a 500, then a
    session that is loading, then none. *)
Definition quietTrace : list Event :=
  [Rendered authenticated tokenSession
     (Some {| JS.oid := 2;
              JS.thrown := JS.IsApiError {| JS.status := 500; JS.message := "boom" |} |});
   Rendered loading None None;
   SignOutFulfilled;
   Rendered unauthenticated None
     (Some {| JS.oid := 3; JS.thrown := JS.NotApiError "TypeError: Failed to fetch" |})].

(** Without rejections the guard says exactly whether a sign-out is in
    flight. *)
Definition guardExact (r : Runtime) : Prop :=
  signOutPending r = if signingOut r then 1 else 0.

(** A 401 signed out and fulfilled, then a session without a token. *)
Definition signOutTwice : list Event :=
  [Rendered authenticated tokenSession unauthorizedError;
   SignOutFulfilled;
   Rendered authenticated tokenlessSession unauthorizedError].

(** Everything the page has asked of the router and the toaster once the
    accept control was used and the join call has settled. *)
Definition acceptFlow (token : option string) (statuses : list SessionStatus)
           (outcome : Invite.Settled) : list Invite.Command :=
  navigations (pageRun token statuses) ++ Invite.handleAccept outcome.

(** ** The words of the claims on the data *)

(** The profile fetch failed with a 401: the error held by the query layer is
    an [ApiError] whose status is 401. *)
Definition failedWith401 (err : option JS.ErrorObject) : Prop :=
  exists (n : nat) (text : string),
    err = Some {| JS.oid := n;
                  JS.thrown := JS.IsApiError {| JS.status := 401; JS.message := text |} |}.

(** The session carries an access token: there is a session and its
    [accessToken] is a non-empty string. *)
Definition tokenPresent (session : option Session) : Prop :=
  exists (c : ascii) (rest : string),
    session = Some {| accessToken := Some (String c rest) |}.

(** ** Several mounted hooks *)

(** Every component that calls [useAuth] has a ref and an effect of its own;
    all of them see the same session and the same query. *)
Definition renderEach (status : SessionStatus) (session : option Session)
           (err : option JS.ErrorObject) (instances : list Runtime) : list Runtime :=
  map (renderHook status session err) instances.

Definition inFlightTotal (instances : list Runtime) : nat :=
  fold_right (fun r n => signOutPending r + n) 0 instances.

(** A fetch that failed for another reason than a 401. *)
Definition networkError : option JS.ErrorObject :=
  Some {| JS.oid := 7; JS.thrown := JS.NotApiError "TypeError: Failed to fetch" |}.

(** ** The query layer *)

Module QueryLayer.

(** What the backend answers to one call of the fetch function. *)
Inductive Answer (T : Type) : Type :=
| Fetched (profile : T)
| Failed (err : JS.ErrorObject).

Arguments Fetched {T} profile.
Arguments Failed {T} err.

(** What the layer has done for one observer: the calls of the fetch
    function it has made and the result it reports. *)
Record Observed (T : Type) : Type := {
  calls : nat;
  result : Query.Result T
}.

Arguments calls {T} _.
Arguments result {T} _.

Definition notFetched {T : Type} : Query.Result T :=
  {| Query.data := None; Query.error := None;
     Query.isPending := true; Query.isSuccess := false |}.

Definition succeeded {T : Type} (profile : T) : Query.Result T :=
  {| Query.data := Some profile; Query.error := None;
     Query.isPending := false; Query.isSuccess := true |}.

Definition failed {T : Type} (err : JS.ErrorObject) : Query.Result T :=
  {| Query.data := None; Query.error := Some err;
     Query.isPending := false; Query.isSuccess := false |}.

(** Modelled from the spec: the query layer ([useQuery] of the query
    library), which is outside the sources.  Given the options it is handed,
    it calls the fetch function only for an enabled query; an answer that
    is a failure is terminal unless [retry] is on, in which case the
    function is called again; until an answer has come the query is
    pending.  [answers] are the answers of the backend to the successive
    calls, [made] the calls made so far. *)
Fixpoint attempt {T : Type} (retry : bool) (answers : list (Answer T)) (made : nat)
  : Observed T :=
  match answers with
  | [] => {| calls := S made; result := notFetched |}
  | Fetched profile :: _ => {| calls := S made; result := succeeded profile |}
  | Failed err :: later =>
      if retry then attempt retry later (S made)
      else {| calls := S made; result := failed err |}
  end.

Definition observe {T : Type} (options : Query.Options) (answers : list (Answer T))
  : Observed T :=
  if Query.enabled options
  then attempt (Query.retry options) answers 0
  else {| calls := 0; result := notFetched |}.

End QueryLayer.

(** ** Reading a query parameter *)

Module URL.

(** A C0 control character or a space. *)
Definition c0OrSpace (c : ascii) : bool := Nat.leb (nat_of_ascii c) 32.

(** A tab or a newline (LF, CR). *)
Definition tabOrNewline (c : ascii) : bool :=
  existsb (Nat.eqb (nat_of_ascii c)) [9; 10; 13].

Fixpoint dropLeading (s : string) : string :=
  match s with
  | EmptyString => EmptyString
  | String c rest => if c0OrSpace c then dropLeading rest else s
  end.

Fixpoint dropTrailing (s : string) : string :=
  match s with
  | EmptyString => EmptyString
  | String c rest =>
      match dropTrailing rest with
      | EmptyString => if c0OrSpace c then EmptyString else String c EmptyString
      | kept => String c kept
      end
  end.

Fixpoint removeTabNewline (s : string) : string :=
  match s with
  | EmptyString => EmptyString
  | String c rest =>
      if tabOrNewline c then removeTabNewline rest
      else String c (removeTabNewline rest)
  end.

(** What the URL parser does to its input before anything else: leading and
    trailing C0 controls and spaces are dropped, tabs and newlines removed. *)
Definition preprocess (s : string) : string :=
  removeTabNewline (dropTrailing (dropLeading s)).

(** The part of a string before the first [d]. *)
Fixpoint beforeChar (d : ascii) (s : string) : string :=
  match s with
  | EmptyString => EmptyString
  | String c rest => if Ascii.eqb c d then EmptyString else String c (beforeChar d rest)
  end.

(** The part of a string after the first [d], if there is one. *)
Fixpoint afterChar (d : ascii) (s : string) : option string :=
  match s with
  | EmptyString => None
  | String c rest => if Ascii.eqb c d then Some rest else afterChar d rest
  end.

(** The pieces between the occurrences of [d]. *)
Fixpoint splitOn (d : ascii) (s : string) : list string :=
  match s with
  | EmptyString => [EmptyString]
  | String c rest =>
      if Ascii.eqb c d then EmptyString :: splitOn d rest
      else match splitOn d rest with
           | [] => [String c EmptyString]
           | piece :: pieces => String c piece :: pieces
           end
  end.

(** The query of a URL: what stands between the first [?] and the
    fragment. *)
Definition query (url : string) : option string :=
  afterChar "?" (beforeChar "#" (preprocess url)).

(** The decoding of a name or a value of a query: [+] is a space, [%XY] with
    two hexadecimal digits is the byte, any other [%] stands for itself. *)
Fixpoint formDecode (s : string) : string :=
  match s with
  | EmptyString => EmptyString
  | String c rest =>
      if Ascii.eqb c "+" then String " " (formDecode rest)
      else if Ascii.eqb c "%" then
        match rest with
        | String h (String l rest') =>
            match URI.hexValue h, URI.hexValue l with
            | Some x, Some y => String (ascii_of_nat (16 * x + y)) (formDecode rest')
            | _, _ => String "%" (formDecode rest)
            end
        | _ => String "%" (formDecode rest)
        end
      else String c (formDecode rest)
  end.

Definition nonEmpty (s : string) : bool :=
  match s with
  | EmptyString => false
  | String _ _ => true
  end.

(** One [name=value] piece of a query, decoded. *)
Definition pairOf (piece : string) : string * string :=
  (formDecode (beforeChar "=" piece),
   formDecode (match afterChar "=" piece with
               | Some value => value
               | None => EmptyString
               end)).

Fixpoint firstValue (name : string) (pairs : list (string * string)) : option string :=
  match pairs with
  | [] => None
  | (n, v) :: later => if String.eqb n name then Some v else firstValue name later
  end.

(** [searchParams.get(name)] for the page at [url]: the value of the first
    parameter of that name, [None] for [null]. *)
Definition searchParamsGet (name : string) (url : string) : option string :=
  match query url with
  | None => None
  | Some q => firstValue name (map pairOf (filter nonEmpty (splitOn "&" q)))
  end.

End URL.

(** A character that stands for itself in the value of a query parameter:
    neither a control character nor a space, and none of [& # + %]. *)
Definition plainInQuery (c : ascii) : bool :=
  negb (URL.c0OrSpace c) && negb (existsb (Ascii.eqb c) ["&"; "#"; "+"; "%"]%char).

(** The invite link the effect puts into the login redirect. *)
Definition callbackLink (token : string) : string := "/invite?token=" ++ token.

(** * Properties *)

(** ** The view returned by [useAuth] *)

Lemma SessionStatus_eqb_eq (a b : SessionStatus) :
  SessionStatus_eqb a b = true <-> a = b.
Proof.
  destruct a, b; simpl; split; intro H; try reflexivity; discriminate H.
Qed.

Lemma truthyObject_some {A : Type} (v : option A) :
  JS.truthyObject v = true <-> exists x, v = Some x.
Proof.
  destruct v as [x|]; simpl; split.
  - intros _. exists x. reflexivity.
  - reflexivity.
  - discriminate.
  - intros [x H]. discriminate H.
Qed.

Lemma truthy_nonempty (v : option string) :
  JS.truthy v = true <-> exists tok, v = Some tok /\ tok <> "".
Proof.
  destruct v as [[|c s]|]; simpl; split; try discriminate.
  - intros [tok [H Hne]]. inversion H. subst. contradiction.
  - intros _. exists (String c s). split; [reflexivity | discriminate].
  - reflexivity.
  - intros [tok [H _]]. discriminate H.
Qed.

(** C1. [isAuthenticated] is true exactly when the profile fetch has succeeded
    and a profile came back, whatever the session status; with a fetch that
    has not succeeded it is false, also for an authenticated session. *)
Theorem isAuthenticated_iff_profile_fetched :
  forall (P : Type) (status : SessionStatus) (session : option Session)
         (q : Query.Result P),
    (AuthView.isAuthenticated (useAuth status session q) = true <->
     Query.isSuccess q = true /\ exists profile, Query.data q = Some profile)
    /\ (forall (d : option P) e pending,
          AuthView.isAuthenticated
            (useAuth authenticated session
               {| Query.data := d; Query.error := e;
                  Query.isPending := pending; Query.isSuccess := false |}) = false).
Proof.
  intros P status session q. split.
  - simpl. unfold isAuthenticated.
    rewrite andb_true_iff, truthyObject_some. reflexivity.
  - intros d e pending. reflexivity.
Qed.

(** C8. [isLoading] is true exactly when the session status is loading, or
    the session is authenticated and the profile fetch is pending. *)
Theorem isLoading_iff_session_loading_or_fetch_pending :
  forall (P : Type) (status : SessionStatus) (session : option Session)
         (q : Query.Result P),
    AuthView.isLoading (useAuth status session q) = true <->
    status = loading \/ (status = authenticated /\ Query.isPending q = true).
Proof.
  intros P status session q. simpl. unfold isLoading.
  rewrite orb_true_iff, andb_true_iff, !SessionStatus_eqb_eq. reflexivity.
Qed.

(** C9, as stated, fails: while the session status is loading and the query
    layer still holds a fetched profile, both flags are true. *)
Lemma cached_profile_while_session_loads :
  Query.consistent cachedProfile = true
  /\ AuthView.isAuthenticated (useAuth loading None cachedProfile) = true
  /\ AuthView.isLoading (useAuth loading None cachedProfile) = true.
Proof.
  repeat split.
Qed.

(** C9, amended. For a fetch state that is not pending and successful at
    once, [isAuthenticated] and [isLoading] are never both true unless the
    session status is loading. *)
Theorem authenticated_excludes_loading_once_session_loaded :
  forall (P : Type) (status : SessionStatus) (session : option Session)
         (q : Query.Result P),
    Query.consistent q = true ->
    status <> loading ->
    ~ (AuthView.isAuthenticated (useAuth status session q) = true
       /\ AuthView.isLoading (useAuth status session q) = true).
Proof.
  intros P status session q Hq Hs [Ha Hl].
  simpl in Ha, Hl. unfold isAuthenticated in Ha. unfold isLoading in Hl.
  unfold Query.consistent in Hq.
  apply andb_true_iff in Ha. destruct Ha as [Hsucc _].
  apply orb_true_iff in Hl. destruct Hl as [Hl | Hl].
  - apply SessionStatus_eqb_eq in Hl. contradiction.
  - apply andb_true_iff in Hl. destruct Hl as [_ Hpend].
    rewrite Hsucc, Hpend in Hq. discriminate Hq.
Qed.

(** The amended C9 at an authenticated session whose fetch is pending. *)
Lemma authenticated_excludes_loading_witness :
  ~ (AuthView.isAuthenticated (useAuth authenticated tokenlessSession pendingFetch) = true
     /\ AuthView.isLoading (useAuth authenticated tokenlessSession pendingFetch) = true).
Proof.
  apply (authenticated_excludes_loading_once_session_loaded
           string authenticated tokenlessSession pendingFetch).
  - reflexivity.
  - discriminate.
Defined.

(** ** The reconciliation effect *)

Lemma sameError_refl (e : option JS.ErrorObject) : JS.sameError e e = true.
Proof.
  destruct e as [[n [[s m] | d]]|]; simpl; try reflexivity.
  - unfold JS.ApiError_eqb. simpl.
    rewrite Nat.eqb_refl, Z.eqb_refl, String.eqb_refl. reflexivity.
  - rewrite Nat.eqb_refl, String.eqb_refl. reflexivity.
Qed.

Lemma depsChanged_same (d : Deps) : depsChanged (Some d) d = false.
Proof.
  destruct d as [e s t]. unfold depsChanged. simpl.
  rewrite sameError_refl.
  replace (SessionStatus_eqb s s) with true by (destruct s; reflexivity).
  rewrite Bool.eqb_reflx. reflexivity.
Qed.

(** The sign-out calls added by one run of the effect: none while the guard
    is set, else one if either condition holds. *)
Lemma reconcileEffect_calls (err : option JS.ErrorObject) (status : SessionStatus)
      (hasTok : bool) (r : Runtime) :
  signOutCalls (reconcileEffect err status hasTok r) =
  signOutCalls r
  + (if signingOut r then 0
     else if isUnauthorized err
             || (SessionStatus_eqb status authenticated && negb hasTok)
          then 1 else 0).
Proof.
  unfold reconcileEffect.
  destruct (signingOut r); [lia|].
  destruct (isUnauthorized err); simpl; [lia|].
  destruct (SessionStatus_eqb status authenticated && negb hasTok); simpl; lia.
Qed.

Lemma reconcileEffect_singleFlight (err : option JS.ErrorObject)
      (status : SessionStatus) (hasTok : bool) (r : Runtime) :
  singleFlight r -> singleFlight (reconcileEffect err status hasTok r).
Proof.
  unfold singleFlight, reconcileEffect. intros [Hle Hfree].
  destruct (signingOut r) eqn:Hg.
  - rewrite Hg. split; assumption.
  - specialize (Hfree eq_refl).
    destruct (isUnauthorized err);
      [| destruct (SessionStatus_eqb status authenticated && negb hasTok)];
      simpl; rewrite ?Hg; split; try lia; try discriminate; auto.
Qed.

Lemma adoptToken_keeps (session : option Session) (r : Runtime) :
  signingOut (adoptToken session r) = signingOut r
  /\ committedDeps (adoptToken session r) = committedDeps r
  /\ signOutCalls (adoptToken session r) = signOutCalls r
  /\ signOutPending (adoptToken session r) = signOutPending r.
Proof.
  unfold adoptToken.
  destruct (sessionAccessToken session) as [[|c s]|]; simpl; repeat split.
Qed.

Lemma step_singleFlight (r : Runtime) (e : Event) :
  singleFlight r -> singleFlight (step r e).
Proof.
  intros H. destruct e as [status session err| |]; simpl.
  - unfold renderHook.
    pose proof (adoptToken_keeps session r) as Ht.
    set (r1 := adoptToken session r) in *.
    destruct Ht as [Hg [_ [_ Hp]]].
    assert (H1 : singleFlight r1).
    { unfold singleFlight in *. rewrite Hg, Hp. exact H. }
    destruct (depsChanged (committedDeps r1) _); [|exact H1].
    apply reconcileEffect_singleFlight. exact H1.
  - unfold signOutFulfilled, singleFlight in *. destruct H as [Hle Hfree].
    destruct (signOutPending r) as [|n] eqn:Hp; simpl.
    + rewrite Hp. split; assumption.
    + split; [lia | intros _; lia].
  - unfold signOutRejected, singleFlight in *. destruct H as [Hle Hfree].
    destruct (signOutPending r) as [|n] eqn:Hp; simpl.
    + rewrite Hp. split; assumption.
    + split; [lia | intros _; lia].
Qed.

Lemma run_singleFlight (trace : list Event) :
  forall r, singleFlight r -> singleFlight (run r trace).
Proof.
  induction trace as [|e trace IH]; intros r H; simpl.
  - exact H.
  - apply IH. apply step_singleFlight. exact H.
Qed.

Lemma initialRuntime_singleFlight : singleFlight initialRuntime.
Proof.
  split; simpl; [lia | reflexivity].
Qed.

(** Once the guard is set with nothing pending, no event changes the guard or
    issues a sign-out. *)
Lemma step_stuck (r : Runtime) (e : Event) :
  stuck r -> stuck (step r e) /\ signOutCalls (step r e) = signOutCalls r.
Proof.
  intros [Hg Hp]. destruct e as [status session err| |]; simpl.
  - unfold renderHook.
    pose proof (adoptToken_keeps session r) as Ht.
    set (r1 := adoptToken session r) in *.
    destruct Ht as [Hg1 [_ [Hc1 Hp1]]].
    destruct (depsChanged (committedDeps r1) _).
    + unfold reconcileEffect. simpl. rewrite Hg1, Hg. simpl.
      unfold stuck. simpl. rewrite Hg1, Hp1, Hc1. auto.
    + unfold stuck. rewrite Hg1, Hp1, Hc1. auto.
  - unfold signOutFulfilled. rewrite Hp. unfold stuck. auto.
  - unfold signOutRejected. rewrite Hp. unfold stuck. auto.
Qed.

Lemma run_stuck (trace : list Event) :
  forall r, stuck r -> stuck (run r trace) /\ signOutCalls (run r trace) = signOutCalls r.
Proof.
  induction trace as [|e trace IH]; intros r H; simpl.
  - split; [exact H | reflexivity].
  - destruct (step_stuck r e H) as [Hs Hc].
    destruct (IH (step r e) Hs) as [Hs' Hc'].
    split; [exact Hs' | congruence].
Qed.

Lemma reconcileEffect_keeps_deps (err : option JS.ErrorObject)
      (status : SessionStatus) (hasTok : bool) (r : Runtime) :
  committedDeps (reconcileEffect err status hasTok r) = committedDeps r.
Proof.
  unfold reconcileEffect.
  destruct (signingOut r); [reflexivity|].
  destruct (isUnauthorized err); [reflexivity|].
  destruct (SessionStatus_eqb status authenticated && negb hasTok); reflexivity.
Qed.

(** The first render of a freshly mounted hook always runs the effect. *)
Lemma first_render (status : SessionStatus) (session : option Session)
      (err : option JS.ErrorObject) :
  let r := renderHook status session err initialRuntime in
  committedDeps r = Some (depsOf status session err)
  /\ signOutCalls r =
     if isUnauthorized err
        || (SessionStatus_eqb status authenticated && negb (hasToken session))
     then 1 else 0.
Proof.
  unfold renderHook.
  destruct (adoptToken_keeps session initialRuntime) as [Hg [Hd [Hc _]]].
  rewrite Hd. simpl depsChanged. cbv iota. split.
  - rewrite reconcileEffect_keeps_deps. reflexivity.
  - rewrite reconcileEffect_calls. simpl. rewrite Hg, Hc. reflexivity.
Qed.

(** As long as the dependencies stay what they were, renders and settlements
    issue no further sign-out. *)
Lemma run_later_calls (status : SessionStatus) (session : option Session)
      (err : option JS.ErrorObject) (after : list Later) :
  forall r,
    committedDeps r = Some (depsOf status session err) ->
    signOutCalls (run r (map (laterEvent status session err) after)) = signOutCalls r.
Proof.
  induction after as [|l after IH]; intros r Hd; simpl; [reflexivity|].
  assert (Hstep : committedDeps (step r (laterEvent status session err l))
                  = Some (depsOf status session err)
                  /\ signOutCalls (step r (laterEvent status session err l))
                     = signOutCalls r).
  { destruct l; simpl.
    - unfold renderHook.
      destruct (adoptToken_keeps session r) as [_ [Hd1 [Hc1 _]]].
      rewrite Hd1, Hd.
      change {| depError := err; depStatus := status; depHasToken := hasToken session |}
        with (depsOf status session err).
      rewrite depsChanged_same. split; congruence.
    - unfold signOutFulfilled. destruct (signOutPending r); simpl; split; auto.
    - unfold signOutRejected. destruct (signOutPending r); simpl; split; auto. }
  destruct Hstep as [Hd' Hc']. rewrite (IH _ Hd'). exact Hc'.
Qed.

(** The sign-out calls of a hook whose inputs stay what they were at its
    first render. *)
Lemma stays_calls (status : SessionStatus) (session : option Session)
      (err : option JS.ErrorObject) (after : list Later) :
  signOutCalls (run initialRuntime (stays status session err after)) =
  if isUnauthorized err
     || (SessionStatus_eqb status authenticated && negb (hasToken session))
  then 1 else 0.
Proof.
  unfold stays. simpl.
  destruct (first_render status session err) as [Hd Hc].
  rewrite (run_later_calls status session err after _ Hd). exact Hc.
Qed.

(** While a sign-out promise is pending the guard is set. *)
Lemma guard_set_while_pending (trace : list Event) :
  signOutPending (run initialRuntime trace) <> 0 ->
  signingOut (run initialRuntime trace) = true.
Proof.
  intros Hp.
  destruct (run_singleFlight trace _ initialRuntime_singleFlight) as [_ Hfree].
  destruct (signingOut (run initialRuntime trace)); [reflexivity|].
  exfalso. apply Hp. apply Hfree. reflexivity.
Qed.

(** The fulfilment of the pending sign-out clears the guard, and the next
    trigger issues a new sign-out. *)
Lemma fulfilled_signOut_releases_guard :
  signingOut (run initialRuntime
                [Rendered authenticated tokenlessSession None; SignOutFulfilled]) = false
  /\ signOutCalls (run initialRuntime
                     [Rendered authenticated tokenlessSession None; SignOutFulfilled;
                      Rendered authenticated tokenlessSession unauthorizedError]) = 2.
Proof.
  split; reflexivity.
Qed.

(** C2. The guard is set when the sign-out is issued and stays set while the
    call is in flight, but a sign-out that completes with failure does not
    release it: after the rejection nothing is pending, the guard is still
    set, and whatever happens later issues no new sign-out. *)
Theorem rejected_signOut_leaves_guard_set :
  forall after : list Event,
    signingOut (run initialRuntime [Rendered authenticated tokenlessSession None]) = true
    /\ signOutPending (run initialRuntime
                         (Rendered authenticated tokenlessSession None
                          :: SignOutRejected :: after)) = 0
    /\ signingOut (run initialRuntime
                     (Rendered authenticated tokenlessSession None
                      :: SignOutRejected :: after)) = true
    /\ signOutCalls (run initialRuntime
                       (Rendered authenticated tokenlessSession None
                        :: SignOutRejected :: after)) = 1.
Proof.
  intros after. split; [reflexivity|].
  change (run initialRuntime
            (Rendered authenticated tokenlessSession None :: SignOutRejected :: after))
    with (run (run initialRuntime
                 [Rendered authenticated tokenlessSession None; SignOutRejected]) after).
  set (r0 := run initialRuntime
               [Rendered authenticated tokenlessSession None; SignOutRejected]).
  assert (H0 : stuck r0) by (split; reflexivity).
  destruct (run_stuck after r0 H0) as [[Hg Hp] Hc].
  repeat split; [exact Hp | exact Hg | rewrite Hc; reflexivity].
Qed.

(** ** [encodeURIComponent] *)

Lemma unreserved_not_percent (c : ascii) :
  URI.unreserved c = true -> Ascii.eqb c "%" = false.
Proof.
  intros H. destruct (Ascii.eqb_spec c "%"%char) as [E|E]; [|reflexivity].
  subst c. discriminate H.
Qed.

Lemma hexValue_high (c : ascii) :
  URI.hexValue (URI.hexDigit (nat_of_ascii c / 16)) = Some (nat_of_ascii c / 16).
Proof.
  destruct c as [[] [] [] [] [] [] [] []]; reflexivity.
Qed.

Lemma hexValue_low (c : ascii) :
  URI.hexValue (URI.hexDigit (nat_of_ascii c mod 16)) = Some (nat_of_ascii c mod 16).
Proof.
  destruct c as [[] [] [] [] [] [] [] []]; reflexivity.
Qed.

Lemma byte_of_digits (c : ascii) :
  ascii_of_nat (16 * (nat_of_ascii c / 16) + nat_of_ascii c mod 16) = c.
Proof.
  rewrite <- Nat.div_mod_eq. apply ascii_nat_embedding.
Qed.

Lemma percentDecode_escape (c : ascii) (rest decoded : string) :
  URI.percentDecode rest = Some decoded ->
  URI.percentDecode (URI.escape c rest) = Some (String c decoded).
Proof.
  intros H. unfold URI.escape.
  cbn [URI.percentDecode]. rewrite Ascii.eqb_refl.
  rewrite hexValue_high, hexValue_low, H, byte_of_digits. reflexivity.
Qed.

(** Percent-decoding gives back what [encodeURIComponent] was given. *)
Lemma percentDecode_encodeURIComponent (s : string) :
  URI.percentDecode (URI.encodeURIComponent s) = Some s.
Proof.
  induction s as [|c s IH]; [reflexivity|].
  cbn [URI.encodeURIComponent].
  destruct (URI.unreserved c) eqn:Hu.
  - cbn [URI.percentDecode]. rewrite (unreserved_not_percent c Hu), IH. reflexivity.
  - apply percentDecode_escape. exact IH.
Qed.

(** ** The invite page *)

Lemma getErrorMessage_specified (reason : JS.Thrown) :
  Invite.getErrorMessage (Some reason) = specifiedMessage (httpStatus reason).
Proof.
  destruct reason as [[code msg] | d]; [|reflexivity].
  unfold Invite.getErrorMessage, httpStatus, specifiedMessage. cbn [JS.status].
  destruct (Z.eqb_spec code 404) as [E|N404]; [subst; reflexivity|].
  destruct (Z.eqb_spec code 403) as [E|N403]; [subst; reflexivity|].
  destruct (Z.eqb_spec code 409) as [E|N409]; [subst; reflexivity|].
  destruct code as [|p|p]; try reflexivity.
  repeat (destruct p as [p|p|]; try reflexivity); congruence.
Qed.

(** C5. A join call that fails issues no navigation (and no notification),
    and the card then rendered carries the message for the HTTP status of the
    failure: 404, 403 and 409 have their own messages, the one for 409 being
    exactly "You are already in a family.", and every other failure has the
    generic one. *)
Theorem failed_join_renders_status_message :
  forall (c : ascii) (rest : string) (reason : JS.Thrown),
    Invite.handleAccept (Invite.Rejected reason) = []
    /\ existsb Invite.isNavigation (Invite.handleAccept (Invite.Rejected reason)) = false
    /\ Invite.redirectEffect (Some (String c rest)) authenticated = []
    /\ Invite.InviteContent (Some (String c rest)) authenticated
         (Invite.settled (Invite.Rejected reason))
       = Invite.InvitationCard (Some (specifiedMessage (httpStatus reason))) false false
    /\ (forall msg,
          Invite.getErrorMessage
            (Some (JS.IsApiError {| JS.status := 409; JS.message := msg |}))
          = "You are already in a family.").
Proof.
  intros c rest reason. repeat split.
  rewrite <- getErrorMessage_specified. reflexivity.
Qed.

(** C6, as stated, fails: with the token parameter present but empty and the
    session unauthenticated, the page redirects to the family page, not to
    the login page. *)
Lemma empty_token_redirects_to_family_page :
  Invite.redirectEffect (Some "") unauthenticated
  = [Invite.RouterReplace "/dashboard/family"]
  /\ Invite.redirectEffect (Some "") unauthenticated
     <> [Invite.RouterReplace
           ("/login?callbackUrl=" ++ URI.encodeURIComponent ("/invite?token=" ++ ""))].
Proof.
  split; [reflexivity | discriminate].
Qed.

(** C7. Without a token parameter the page redirects to /dashboard/family and
    renders nothing, whatever the session status and the state of the join. *)
Theorem missing_token_redirects_to_family_page :
  forall (status : SessionStatus) (joinByToken : Invite.Mutation),
    Invite.redirectEffect None status = [Invite.RouterReplace "/dashboard/family"]
    /\ Invite.InviteContent None status joinByToken = Invite.Nothing
    /\ Invite.pageLoad None status
       = (Invite.Nothing, [Invite.RouterReplace "/dashboard/family"]).
Proof.
  intros status joinByToken. repeat split.
Qed.

(** C10. [getErrorMessage] returns for every input; for a value that is not
    an [ApiError] and for an [ApiError] whose status is none of 404, 403 and
    409 the result is the generic message, which is not empty. *)
Theorem getErrorMessage_falls_back_to_generic :
  forall error : option JS.Thrown,
    unlisted error ->
    Invite.getErrorMessage error = "Something went wrong. Please try again."
    /\ Invite.getErrorMessage error <> "".
Proof.
  intros error H.
  assert (E : Invite.getErrorMessage error = "Something went wrong. Please try again.").
  { destruct error as [[[code msg] | d]|]; try reflexivity.
    simpl in H. destruct H as [N404 [N403 N409]].
    unfold Invite.getErrorMessage. cbn [JS.status].
    apply Z.eqb_neq in N404, N403, N409.
    rewrite N404, N403, N409. reflexivity. }
  split; [exact E | rewrite E; discriminate].
Qed.

(** C10 at an [ApiError] with status 401. *)
Lemma getErrorMessage_unauthorized_witness :
  Invite.getErrorMessage
    (Some (JS.IsApiError {| JS.status := 401; JS.message := "Unauthorized" |}))
  = "Something went wrong. Please try again."
  /\ Invite.getErrorMessage
       (Some (JS.IsApiError {| JS.status := 401; JS.message := "Unauthorized" |}))
     <> "".
Proof.
  apply (getErrorMessage_falls_back_to_generic
           (Some (JS.IsApiError {| JS.status := 401; JS.message := "Unauthorized" |}))).
  simpl. repeat split; discriminate.
Defined.

(** The accept control is disabled while the join is in flight and after it
    succeeded, and available again after a failure. *)
Lemma accept_control_availability (c : ascii) (rest : string)
      (result : Invite.JoinResult) (reason : JS.Thrown) :
  Invite.InviteContent (Some (String c rest)) authenticated Invite.idle
  = Invite.InvitationCard None false false
  /\ Invite.InviteContent (Some (String c rest)) authenticated Invite.inFlight
     = Invite.InvitationCard None true true
  /\ Invite.InviteContent (Some (String c rest)) authenticated
       (Invite.settled (Invite.Resolved result))
     = Invite.InvitationCard None true false
  /\ Invite.InviteContent (Some (String c rest)) authenticated
       (Invite.settled (Invite.Rejected reason))
     = Invite.InvitationCard (Some (Invite.getErrorMessage (Some reason))) false false.
Proof.
  repeat split.
Qed.

(** * Further properties of the code *)

(** ** [useAuth]: the returned object *)

(** X1. Whenever the object returned by [useAuth] says [isAuthenticated], its
    [user] field holds a profile. *)
Theorem authenticated_view_has_user :
  forall (P : Type) (status : SessionStatus) (session : option Session)
         (q : Query.Result P),
    AuthView.isAuthenticated (useAuth status session q) = true ->
    exists profile, AuthView.user (useAuth status session q) = Some profile.
Proof.
  intros P status session q H. simpl in *. unfold isAuthenticated in H.
  apply andb_true_iff in H. destruct H as [_ H].
  destruct (Query.data q) as [p|]; [exists p; reflexivity | discriminate H].
Qed.

(** X1 at a session that is still loading over a profile fetched earlier. *)
Lemma authenticated_view_has_user_witness :
  exists profile, AuthView.user (useAuth loading None cachedProfile) = Some profile.
Proof.
  apply (authenticated_view_has_user string loading None cachedProfile).
  reflexivity.
Defined.

(** ** [useAuth]: the token handed to the API client *)

Lemma reconcileEffect_keeps_token (err : option JS.ErrorObject)
      (status : SessionStatus) (hasTok : bool) (r : Runtime) :
  apiAccessToken (reconcileEffect err status hasTok r) = apiAccessToken r.
Proof.
  unfold reconcileEffect.
  destruct (signingOut r); [reflexivity|].
  destruct (isUnauthorized err); [reflexivity|].
  destruct (SessionStatus_eqb status authenticated && negb hasTok); reflexivity.
Qed.

Lemma adoptToken_token (session : option Session) (r : Runtime) :
  apiAccessToken (adoptToken session r) =
  if hasToken session then sessionAccessToken session else apiAccessToken r.
Proof.
  unfold adoptToken, hasToken.
  destruct (sessionAccessToken session) as [[|c s]|]; reflexivity.
Qed.

Lemma step_token (r : Runtime) (e : Event) :
  apiAccessToken (step r e) = lastToken [e] (apiAccessToken r).
Proof.
  destruct e as [status session err| |]; simpl.
  - unfold renderHook.
    destruct (depsChanged _ _).
    + rewrite reconcileEffect_keeps_token. simpl. apply adoptToken_token.
    + apply adoptToken_token.
  - unfold signOutFulfilled. destruct (signOutPending r); reflexivity.
  - unfold signOutRejected. destruct (signOutPending r); reflexivity.
Qed.

Lemma run_token (trace : list Event) :
  forall r, apiAccessToken (run r trace) = lastToken trace (apiAccessToken r).
Proof.
  induction trace as [|e trace IH]; intros r; [reflexivity|].
  simpl run. rewrite IH, step_token. destruct e; reflexivity.
Qed.

Lemma run_app (r : Runtime) (a b : list Event) :
  run r (a ++ b) = run (run r a) b.
Proof.
  unfold run. apply fold_left_app.
Qed.

(** X2. After any trace the API client holds the last non-empty access token
    a render has seen; nothing ever clears it: neither a render without a
    token (a session signed out, or none at all) nor the settling of a
    sign-out changes it. *)
Theorem api_token_is_last_seen_and_never_cleared :
  forall (trace : list Event) (status : SessionStatus)
         (err : option JS.ErrorObject) (tok : string),
    apiAccessToken (run initialRuntime trace) = lastToken trace None
    /\ apiAccessToken (run initialRuntime (trace ++ [Rendered status None err]))
       = apiAccessToken (run initialRuntime trace)
    /\ apiAccessToken
         (run initialRuntime
            (trace ++ [Rendered status (Some {| accessToken := Some "" |}) err]))
       = apiAccessToken (run initialRuntime trace)
    /\ apiAccessToken (run initialRuntime (trace ++ [SignOutFulfilled]))
       = apiAccessToken (run initialRuntime trace)
    /\ apiAccessToken (run initialRuntime (trace ++ [SignOutRejected]))
       = apiAccessToken (run initialRuntime trace)
    /\ apiAccessToken
         (run initialRuntime
            (trace ++ [Rendered status
                         (Some {| accessToken := Some (String "t" tok) |}) err]))
       = Some (String "t" tok).
Proof.
  intros trace status err tok.
  split; [apply run_token|].
  repeat split; rewrite run_app, run_token; reflexivity.
Qed.

(** ** [useAuth]: the effect over a whole trace *)

(** X3. The first render of a freshly mounted hook issues one sign-out if the
    fetch error is a 401, whatever the session; otherwise one if the session
    is authenticated and the profile fetch is not enabled; otherwise none.
    An authenticated session is thus either fetched for or signed out. *)
Theorem first_render_fetches_or_signs_out :
  forall (status : SessionStatus) (session : option Session)
         (err : option JS.ErrorObject),
    signOutCalls (run initialRuntime [Rendered status session err]) =
    if isUnauthorized err then 1
    else if SessionStatus_eqb status authenticated
            && negb (Query.enabled (userQuery status session))
    then 1 else 0.
Proof.
  intros status session err. simpl.
  destruct (first_render status session err) as [_ Hc]. rewrite Hc.
  destruct (isUnauthorized err); [reflexivity|].
  destruct (SessionStatus_eqb status authenticated), (hasToken session); reflexivity.
Qed.

Lemma step_quiet (r : Runtime) (e : Event) :
  quiet e = true ->
  signingOut r = false /\ signOutPending r = 0 ->
  (signingOut (step r e) = false /\ signOutPending (step r e) = 0)
  /\ signOutCalls (step r e) = signOutCalls r.
Proof.
  intros Hq [Hg Hp]. destruct e as [status session err| |]; simpl.
  - simpl in Hq. apply andb_true_iff in Hq. destruct Hq as [H401 Htok].
    apply negb_true_iff in H401, Htok.
    unfold renderHook.
    destruct (adoptToken_keeps session r) as [Hg1 [_ [Hc1 Hp1]]].
    destruct (depsChanged _ _).
    + unfold reconcileEffect. simpl. rewrite Hg1, Hg, H401, Htok. simpl.
      rewrite Hg1, Hp1, Hc1. auto.
    + rewrite Hg1, Hp1, Hc1. auto.
  - unfold signOutFulfilled. rewrite Hp. auto.
  - unfold signOutRejected. rewrite Hp. auto.
Qed.

Lemma run_quiet (trace : list Event) :
  forall r,
    forallb quiet trace = true ->
    signingOut r = false /\ signOutPending r = 0 ->
    (signingOut (run r trace) = false /\ signOutPending (run r trace) = 0)
    /\ signOutCalls (run r trace) = signOutCalls r.
Proof.
  induction trace as [|e trace IH]; intros r Hq Hr; simpl.
  - split; [exact Hr | reflexivity].
  - simpl in Hq. apply andb_true_iff in Hq. destruct Hq as [He Hrest].
    destruct (step_quiet r e He Hr) as [Hr' Hc].
    destruct (IH (step r e) Hrest Hr') as [Hr'' Hc'].
    split; [exact Hr'' | congruence].
Qed.

(** X4. The hook never signs out without cause: on a trace none of whose
    renders sees a 401 or an authenticated session without a token, no
    sign-out is issued and the guard is never set, whatever other errors the
    profile fetch reports. *)
Theorem no_signOut_without_cause :
  forall trace : list Event,
    forallb quiet trace = true ->
    signOutCalls (run initialRuntime trace) = 0
    /\ signingOut (run initialRuntime trace) = false.
Proof.
  intros trace Hq.
  destruct (run_quiet trace initialRuntime Hq (conj eq_refl eq_refl)) as [[Hg _] Hc].
  split; [exact Hc | exact Hg].
Qed.

(** X4 on a trace with a 500 and a network failure. *)
Lemma no_signOut_without_cause_witness :
  signOutCalls (run initialRuntime quietTrace) = 0
  /\ signingOut (run initialRuntime quietTrace) = false.
Proof.
  apply (no_signOut_without_cause quietTrace). reflexivity.
Defined.

Lemma reconcileEffect_guardExact (err : option JS.ErrorObject)
      (status : SessionStatus) (hasTok : bool) (r : Runtime) :
  guardExact r -> guardExact (reconcileEffect err status hasTok r).
Proof.
  unfold guardExact, reconcileEffect. intros Hinv.
  destruct (signingOut r) eqn:Hg.
  - rewrite Hg. exact Hinv.
  - destruct (isUnauthorized err);
      [| destruct (SessionStatus_eqb status authenticated && negb hasTok)];
      simpl; rewrite ?Hg; rewrite Hinv; reflexivity.
Qed.

Lemma step_guardExact (r : Runtime) (e : Event) :
  isRejection e = false -> guardExact r -> guardExact (step r e).
Proof.
  intros He Hinv.
  destruct e as [status session err| |]; simpl; try discriminate He.
  - unfold renderHook.
    destruct (adoptToken_keeps session r) as [Hg1 [_ [_ Hp1]]].
    set (r1 := adoptToken session r) in *.
    assert (Hinv1 : guardExact r1).
    { unfold guardExact in *. rewrite Hg1, Hp1. exact Hinv. }
    destruct (depsChanged _ _); [|exact Hinv1].
    apply reconcileEffect_guardExact. exact Hinv1.
  - unfold guardExact, signOutFulfilled in *.
    destruct (signOutPending r) as [|n] eqn:Hp; simpl.
    + rewrite Hp. exact Hinv.
    + destruct (signingOut r); inversion Hinv. reflexivity.
Qed.

Lemma run_guardExact (trace : list Event) :
  forall r,
    existsb isRejection trace = false -> guardExact r -> guardExact (run r trace).
Proof.
  induction trace as [|e trace IH]; intros r Hq Hr; simpl; [exact Hr|].
  simpl in Hq. apply orb_false_iff in Hq. destruct Hq as [He Hrest].
  apply IH; [exact Hrest | apply step_guardExact; assumption].
Qed.

(** X5. As long as no sign-out has been rejected, the guard is set exactly
    while a sign-out is in flight: it is set when the call is issued and
    cleared when the call is fulfilled. *)
Theorem guard_tracks_pending_signOut :
  forall trace : list Event,
    existsb isRejection trace = false ->
    (signingOut (run initialRuntime trace) = true
     <-> signOutPending (run initialRuntime trace) = 1)
    /\ (signingOut (run initialRuntime trace) = false
        <-> signOutPending (run initialRuntime trace) = 0).
Proof.
  intros trace Hq.
  assert (H : guardExact (run initialRuntime trace)).
  { apply run_guardExact; [exact Hq | reflexivity]. }
  unfold guardExact in H.
  destruct (signingOut (run initialRuntime trace)); rewrite H;
    split; split; intro E; try reflexivity; discriminate E.
Qed.

(** X5 on a trace with two sign-outs, the first fulfilled. *)
Lemma guard_tracks_pending_signOut_witness :
  (signingOut (run initialRuntime signOutTwice) = true
   <-> signOutPending (run initialRuntime signOutTwice) = 1)
  /\ (signingOut (run initialRuntime signOutTwice) = false
      <-> signOutPending (run initialRuntime signOutTwice) = 0).
Proof.
  apply (guard_tracks_pending_signOut signOutTwice). reflexivity.
Defined.

Lemma reconcileEffect_calls_bound (err : option JS.ErrorObject)
      (status : SessionStatus) (hasTok : bool) (r : Runtime) :
  signOutCalls (reconcileEffect err status hasTok r)
  + (if signingOut (reconcileEffect err status hasTok r) then 0 else 1)
  <= signOutCalls r + (if signingOut r then 0 else 1).
Proof.
  unfold reconcileEffect.
  destruct (signingOut r) eqn:Hg.
  - rewrite Hg. lia.
  - destruct (isUnauthorized err);
      [| destruct (SessionStatus_eqb status authenticated && negb hasTok)];
      simpl; rewrite ?Hg; lia.
Qed.

Lemma step_calls_bound (r : Runtime) (e : Event) :
  signOutCalls (step r e) + (if signingOut (step r e) then 0 else 1)
  <= signOutCalls r + (if signingOut r then 0 else 1)
     + (if isFulfilment e then 1 else 0).
Proof.
  destruct e as [status session err| |]; simpl.
  - unfold renderHook.
    destruct (adoptToken_keeps session r) as [Hg1 [_ [Hc1 _]]].
    set (r1 := adoptToken session r) in *.
    rewrite <- Hg1, <- Hc1.
    destruct (depsChanged _ _); [|lia].
    pose proof (reconcileEffect_calls_bound err status (hasToken session)
                  (set_committedDeps
                     {| depError := err; depStatus := status;
                        depHasToken := hasToken session |} r1)) as H.
    simpl in H. lia.
  - unfold signOutFulfilled.
    destruct (signOutPending r); simpl; destruct (signingOut r); lia.
  - unfold signOutRejected.
    destruct (signOutPending r); simpl; destruct (signingOut r); lia.
Qed.

Lemma run_calls_bound (trace : list Event) :
  forall r,
    signOutCalls (run r trace) + (if signingOut (run r trace) then 0 else 1)
    <= signOutCalls r + (if signingOut r then 0 else 1)
       + List.length (filter isFulfilment trace).
Proof.
  induction trace as [|e trace IH]; intros r; simpl; [lia|].
  specialize (IH (step r e)). pose proof (step_calls_bound r e) as Hs.
  destruct (isFulfilment e); simpl; lia.
Qed.

(** X6. Sign-outs are issued one after the other: every sign-out after the
    first needs the fulfilment of an earlier one, so a trace with [n]
    fulfilments has at most [n + 1] sign-out calls. *)
Theorem signOut_calls_bounded_by_fulfilments :
  forall trace : list Event,
    signOutCalls (run initialRuntime trace) <= 1 + List.length (filter isFulfilment trace).
Proof.
  intros trace. pose proof (run_calls_bound trace initialRuntime) as H.
  simpl in H. destruct (signingOut (run initialRuntime trace)); lia.
Qed.

(** ** The invite page: what is rendered and what the effect asks for *)

(** X7. The invitation card, and with it the accept control, is rendered
    exactly when the page is not suspended, the token is non-empty and the
    session is authenticated; the page renders nothing exactly when it is not
    suspended and the token is missing or empty; and the effect asks for no
    redirect exactly when the token is non-empty and the session is not
    unauthenticated.  So the card is never shown together with a redirect. *)
Theorem invitation_card_iff_token_and_authenticated :
  forall (suspended : bool) (token : option string) (status : SessionStatus)
         (joinByToken : Invite.Mutation),
    ((exists text disabled spinner,
         InvitePage suspended token status joinByToken
         = Invite.InvitationCard text disabled spinner)
     <-> suspended = false /\ JS.truthy token = true /\ status = authenticated)
    /\ (InvitePage suspended token status joinByToken = Invite.Nothing
        <-> suspended = false /\ JS.truthy token = false)
    /\ (Invite.redirectEffect token status = []
        <-> JS.truthy token = true /\ status <> unauthenticated).
Proof.
  intros suspended token status m. unfold InvitePage, Invite.InviteContent,
    Invite.redirectEffect.
  destruct suspended, (JS.truthy token), status; simpl;
    (split; [|split]); split;
    try (intros [text [disabled [spinner H]]]; discriminate H);
    try (intros [H1 [H2 H3]]; discriminate);
    try (intros [H1 H2]; try discriminate; exfalso; apply H2; reflexivity);
    try (intros H; discriminate H);
    try (intros _; repeat split; try discriminate; eauto).
Qed.

Lemma redirectEffect_with_token (c : ascii) (rest : string) (status : SessionStatus) :
  Invite.redirectEffect (Some (String c rest)) status =
  if SessionStatus_eqb status unauthenticated then [loginRedirect (String c rest)] else [].
Proof.
  reflexivity.
Qed.

Lemma renderPage_with_token (c : ascii) (rest : string) (p : Page)
      (status : SessionStatus) :
  Forall (fun cmd => cmd = loginRedirect (String c rest)) (navigations p) ->
  Forall (fun cmd => cmd = loginRedirect (String c rest))
         (navigations (renderPage (Some (String c rest)) p status))
  /\ List.length (navigations (renderPage (Some (String c rest)) p status))
     <= List.length (navigations p)
        + (if SessionStatus_eqb status unauthenticated then 1 else 0).
Proof.
  intros H. unfold renderPage.
  destruct (pageDepsChanged (pageDeps p) status (Some (String c rest))).
  - cbn [navigations]. rewrite redirectEffect_with_token.
    destruct (SessionStatus_eqb status unauthenticated).
    + split.
      * apply Forall_app. split; [exact H | constructor; [reflexivity | constructor]].
      * rewrite length_app. simpl. lia.
    + rewrite app_nil_r. split; [exact H | lia].
  - split; [exact H | lia].
Qed.

Lemma pageRun_with_token (c : ascii) (rest : string) (statuses : list SessionStatus) :
  forall p,
    Forall (fun cmd => cmd = loginRedirect (String c rest)) (navigations p) ->
    Forall (fun cmd => cmd = loginRedirect (String c rest))
           (navigations (fold_left (renderPage (Some (String c rest))) statuses p))
    /\ List.length
         (navigations (fold_left (renderPage (Some (String c rest))) statuses p))
       <= List.length (navigations p)
          + List.length (filter (SessionStatus_eqb unauthenticated) statuses).
Proof.
  induction statuses as [|s statuses IH]; intros p H; cbn [fold_left filter].
  - split; [exact H | simpl; lia].
  - destruct (renderPage_with_token c rest p s H) as [HF HL].
    destruct (IH _ HF) as [HF' HL'].
    split; [exact HF'|].
    replace (SessionStatus_eqb unauthenticated s)
      with (SessionStatus_eqb s unauthenticated) by (destruct s; reflexivity).
    destruct (SessionStatus_eqb s unauthenticated); cbn [List.length]; lia.
Qed.

Lemma pageRun_without_token (statuses : list SessionStatus) :
  forall p,
    Forall (fun cmd => cmd = Invite.RouterReplace "/dashboard/family") (navigations p) ->
    Forall (fun cmd => cmd = Invite.RouterReplace "/dashboard/family")
           (navigations (fold_left (renderPage None) statuses p)).
Proof.
  induction statuses as [|s statuses IH]; intros p H; simpl; [exact H|].
  apply IH. unfold renderPage.
  destruct (pageDepsChanged (pageDeps p) s None); [|exact H].
  cbn [navigations]. apply Forall_app. split; [exact H|].
  constructor; [reflexivity | constructor].
Qed.

(** X8. Over the lifetime of a page with a non-empty token, whatever
    sequence of session statuses it is rendered with, the only thing its
    effect ever asks of the router is the login redirect for that token, and
    it asks no more often than the status was unauthenticated; in particular
    it asks nothing while the status is only loading or authenticated.
    Without a token, everything it asks is the redirect to /dashboard/family,
    first of all on the first render. *)
Theorem invite_redirects_over_page_lifetime :
  forall (c : ascii) (rest : string) (first : SessionStatus)
         (statuses : list SessionStatus),
    Forall (fun cmd => cmd = loginRedirect (String c rest))
           (navigations (pageRun (Some (String c rest)) statuses))
    /\ List.length (navigations (pageRun (Some (String c rest)) statuses))
       <= List.length (filter (SessionStatus_eqb unauthenticated) statuses)
    /\ Forall (fun cmd => cmd = Invite.RouterReplace "/dashboard/family")
              (navigations (pageRun None statuses))
    /\ navigations (pageRun None [first]) = [Invite.RouterReplace "/dashboard/family"].
Proof.
  intros c rest first statuses. unfold pageRun.
  destruct (pageRun_with_token c rest statuses initialPage (Forall_nil _)) as [HF HL].
  split; [exact HF | split; [exact HL | split]].
  - apply pageRun_without_token. constructor.
  - reflexivity.
Qed.

(** ** The invite page: the login redirect *)

Lemma hexDigit_high_unreserved (c : ascii) :
  URI.unreserved (URI.hexDigit (nat_of_ascii c / 16)) = true.
Proof.
  destruct c as [[] [] [] [] [] [] [] []]; reflexivity.
Qed.

Lemma hexDigit_low_unreserved (c : ascii) :
  URI.unreserved (URI.hexDigit (nat_of_ascii c mod 16)) = true.
Proof.
  destruct c as [[] [] [] [] [] [] [] []]; reflexivity.
Qed.

Lemma delimiter_not_produced (c : ascii) :
  URI.unreserved c || Ascii.eqb c "%" = true -> isDelimiter c = false.
Proof.
  destruct c as [[] [] [] [] [] [] [] []]; intros H; try reflexivity; discriminate H.
Qed.

(** [encodeURIComponent] produces unreserved characters and escapes only. *)
Lemma encodeURIComponent_no_delimiter (s : string) :
  existsb isDelimiter (list_ascii_of_string (URI.encodeURIComponent s)) = false.
Proof.
  induction s as [|c s IH]; [reflexivity|].
  cbn [URI.encodeURIComponent].
  destruct (URI.unreserved c) eqn:Hu.
  - cbn [list_ascii_of_string existsb]. rewrite IH.
    rewrite (delimiter_not_produced c); [reflexivity|].
    rewrite Hu. reflexivity.
  - unfold URI.escape. cbn [list_ascii_of_string existsb]. rewrite IH.
    rewrite (delimiter_not_produced "%"%char) by reflexivity.
    rewrite (delimiter_not_produced (URI.hexDigit (nat_of_ascii c / 16)))
      by (rewrite hexDigit_high_unreserved; reflexivity).
    rewrite (delimiter_not_produced (URI.hexDigit (nat_of_ascii c mod 16)))
      by (rewrite hexDigit_low_unreserved; reflexivity).
    reflexivity.
Qed.

(** X9. Whatever bytes the token holds, the login redirect is
    /login?callbackUrl= followed by a value in which none of the characters
    that delimit a URL or its query occurs: the token cannot end the
    parameter or add another one. *)
Theorem login_redirect_value_has_no_delimiter :
  forall (c : ascii) (rest : string),
    exists value,
      Invite.redirectEffect (Some (String c rest)) unauthenticated
      = [Invite.RouterReplace ("/login?callbackUrl=" ++ value)]
      /\ existsb isDelimiter (list_ascii_of_string value) = false.
Proof.
  intros c rest.
  exists (URI.encodeURIComponent ("/invite?token=" ++ String c rest)).
  split; [reflexivity | apply encodeURIComponent_no_delimiter].
Qed.

Lemma encodeURIComponent_injective (a b : string) :
  URI.encodeURIComponent a = URI.encodeURIComponent b -> a = b.
Proof.
  intros H.
  pose proof (percentDecode_encodeURIComponent a) as Ha.
  rewrite H, percentDecode_encodeURIComponent in Ha.
  inversion Ha. reflexivity.
Qed.

(** X10. Two tokens that give the same login redirect are the same token:
    the redirect loses nothing of the token. *)
Theorem login_redirect_determines_token :
  forall (c1 c2 : ascii) (rest1 rest2 : string),
    Invite.redirectEffect (Some (String c1 rest1)) unauthenticated
    = Invite.redirectEffect (Some (String c2 rest2)) unauthenticated ->
    String c1 rest1 = String c2 rest2.
Proof.
  intros c1 c2 rest1 rest2 H.
  rewrite !redirectEffect_with_token in H. simpl SessionStatus_eqb in H.
  cbv iota in H. unfold loginRedirect in H.
  inversion H as [H1]. clear H.
  change (URI.encodeURIComponent (String c1 rest1)
          = URI.encodeURIComponent (String c2 rest2)) in H1.
  exact (encodeURIComponent_injective _ _ H1).
Qed.

(** X10 at a token that needs escaping. *)
Lemma login_redirect_determines_token_witness : "a b&c" = "a b&c".
Proof.
  apply (login_redirect_determines_token "a" "a" " b&c" " b&c"). reflexivity.
Defined.

Lemma encodeURIComponent_app (a b : string) :
  URI.encodeURIComponent (a ++ b) = URI.encodeURIComponent a ++ URI.encodeURIComponent b.
Proof.
  induction a as [|c a IH]; [reflexivity|].
  simpl. rewrite IH. destruct (URI.unreserved c); reflexivity.
Qed.

Lemma encodeURIComponent_unreserved (s : string) :
  forallb URI.unreserved (list_ascii_of_string s) = true ->
  URI.encodeURIComponent s = s.
Proof.
  induction s as [|c s IH]; [reflexivity|].
  cbn [list_ascii_of_string forallb URI.encodeURIComponent]. intros H.
  apply andb_true_iff in H. destruct H as [Hc Hs].
  rewrite Hc, (IH Hs). reflexivity.
Qed.

(** X11. A token made of letters, digits and [- _ . ! ~ * ' ( )] only goes
    into the login redirect as it is, after the escaped invite path. *)
Theorem login_redirect_keeps_unreserved_token :
  forall (c : ascii) (rest : string),
    forallb URI.unreserved (list_ascii_of_string (String c rest)) = true ->
    Invite.redirectEffect (Some (String c rest)) unauthenticated
    = [Invite.RouterReplace
         ("/login?callbackUrl=%2Finvite%3Ftoken%3D" ++ String c rest)].
Proof.
  intros c rest H.
  rewrite redirectEffect_with_token. simpl SessionStatus_eqb. cbv iota.
  unfold loginRedirect.
  rewrite encodeURIComponent_app, (encodeURIComponent_unreserved _ H).
  reflexivity.
Qed.

(** X11 at a token with marks. *)
Lemma login_redirect_keeps_unreserved_token_witness :
  Invite.redirectEffect (Some "Zk3-_x9.~Q") unauthenticated
  = [Invite.RouterReplace "/login?callbackUrl=%2Finvite%3Ftoken%3DZk3-_x9.~Q"].
Proof.
  apply (login_redirect_keeps_unreserved_token "Z" "k3-_x9.~Q"). reflexivity.
Defined.

(** ** The invite page: messages and the accept flow *)

(** X12. [getErrorMessage] only ever returns one of its four fixed messages,
    and for an [ApiError] the message depends on the status alone: the text
    the server sent with the error is never shown. *)
Theorem getErrorMessage_never_shows_server_text :
  forall (error : option JS.Thrown) (code : Z) (text1 text2 : string),
    In (Invite.getErrorMessage error) knownMessages
    /\ Invite.getErrorMessage
         (Some (JS.IsApiError {| JS.status := code; JS.message := text1 |}))
       = Invite.getErrorMessage
           (Some (JS.IsApiError {| JS.status := code; JS.message := text2 |})).
Proof.
  intros error code text1 text2. split; [|reflexivity].
  unfold knownMessages.
  destruct error as [[[c m] | d]|]; simpl; auto 6.
  destruct (Z.eqb c 404); [auto|].
  destruct (Z.eqb c 403); [auto|].
  destruct (Z.eqb c 409); auto 6.
Qed.

Lemma filter_none_of_existsb_false (statuses : list SessionStatus) :
  existsb (SessionStatus_eqb unauthenticated) statuses = false ->
  filter (SessionStatus_eqb unauthenticated) statuses = [].
Proof.
  induction statuses as [|s statuses IH]; [reflexivity|].
  cbn [existsb filter]. intros H. apply orb_false_iff in H. destruct H as [Hs Hrest].
  rewrite Hs. apply IH. exact Hrest.
Qed.

(** X13. On a page with a non-empty token whose session was never
    unauthenticated, all that the page asks for up to the settling of the
    join call is: after a join that resolved, the notification naming the
    family and then one push to /dashboard/family; after a join that was
    rejected, nothing. *)
Theorem accept_flow_navigates_only_on_success :
  forall (c : ascii) (rest : string) (statuses : list SessionStatus)
         (outcome : Invite.Settled),
    existsb (SessionStatus_eqb unauthenticated) statuses = false ->
    acceptFlow (Some (String c rest)) statuses outcome =
    match outcome with
    | Invite.Resolved result =>
        [Invite.ToastSuccess ("Joined " ++ Invite.family_name result ++ "!");
         Invite.RouterPush "/dashboard/family"]
    | Invite.Rejected _ => []
    end.
Proof.
  intros c rest statuses outcome H. unfold acceptFlow, pageRun.
  destruct (pageRun_with_token c rest statuses initialPage (Forall_nil _)) as [_ HL].
  rewrite (filter_none_of_existsb_false statuses H) in HL. simpl in HL.
  destruct (navigations (fold_left (renderPage (Some (String c rest))) statuses
                           initialPage)) as [|cmd cmds];
    [| simpl in HL; lia].
  destruct outcome; reflexivity.
Qed.

(** X13 for a session that loads and is authenticated, and a join that
    resolves with the family Smiths. *)
Lemma accept_flow_navigates_only_on_success_witness :
  acceptFlow (Some "abc123") [loading; authenticated]
    (Invite.Resolved {| Invite.family_name := "Smiths" |})
  = [Invite.ToastSuccess "Joined Smiths!"; Invite.RouterPush "/dashboard/family"].
Proof.
  apply (accept_flow_navigates_only_on_success
           "a" "bc123" [loading; authenticated]
           (Invite.Resolved {| Invite.family_name := "Smiths" |})).
  reflexivity.
Defined.

(** ** [useAuth]: triggers that overlap or repeat *)

Lemma run_unchanged_calls (status : SessionStatus) (session : option Session)
      (err : option JS.ErrorObject) (after : list Later) :
  forall r,
    depsChanged (committedDeps r) (depsOf status session err) = false ->
    signOutCalls (run r (map (laterEvent status session err) after)) = signOutCalls r.
Proof.
  induction after as [|l after IH]; intros r Hd; [reflexivity|].
  cbn [map run fold_left].
  assert (Hstep : depsChanged (committedDeps (step r (laterEvent status session err l)))
                    (depsOf status session err) = false
                  /\ signOutCalls (step r (laterEvent status session err l))
                     = signOutCalls r).
  { destruct l; simpl.
    - unfold renderHook.
      destruct (adoptToken_keeps session r) as [_ [Hd1 [Hc1 _]]].
      change {| depError := err; depStatus := status; depHasToken := hasToken session |}
        with (depsOf status session err).
      rewrite Hd1, Hd. rewrite Hd1. split; assumption.
    - unfold signOutFulfilled. destruct (signOutPending r); simpl; split; auto.
    - unfold signOutRejected. destruct (signOutPending r); simpl; split; auto. }
  destruct Hstep as [Hd' Hc'].
  change (fold_left step (map (laterEvent status session err) after)
            (step r (laterEvent status session err l)))
    with (run (step r (laterEvent status session err l))
              (map (laterEvent status session err) after)).
  rewrite (IH _ Hd'). exact Hc'.
Qed.

Lemma guarded_render (status : SessionStatus) (session : option Session)
      (err : option JS.ErrorObject) (r : Runtime) :
  signingOut r = true ->
  signingOut (renderHook status session err r) = true
  /\ signOutCalls (renderHook status session err r) = signOutCalls r
  /\ signOutPending (renderHook status session err r) = signOutPending r
  /\ depsChanged (committedDeps (renderHook status session err r))
       (depsOf status session err) = false.
Proof.
  intros Hg. unfold renderHook.
  destruct (adoptToken_keeps session r) as [Hg1 [Hd1 [Hc1 Hp1]]].
  change {| depError := err; depStatus := status; depHasToken := hasToken session |}
    with (depsOf status session err).
  destruct (depsChanged (committedDeps (adoptToken session r))
              (depsOf status session err)) eqn:Hch.
  - unfold reconcileEffect. simpl. rewrite Hg1, Hg. simpl.
    rewrite Hg1, Hc1, Hp1, Hg. repeat split.
    apply (depsChanged_same (depsOf status session err)).
  - rewrite Hg1, Hc1, Hp1, Hg. repeat split. exact Hch.
Qed.

(** X14. Triggers that overlap a sign-out in flight are dropped, not queued:
    whatever a render sees while the first sign-out is pending (a 401
    included), no sign-out is issued for it, neither then nor after the first
    one is fulfilled, as long as the hook's inputs stay what that render
    saw. *)
Theorem overlapping_trigger_is_dropped :
  forall (status : SessionStatus) (session : option Session)
         (err : option JS.ErrorObject) (after : list Later),
    signOutCalls
      (run initialRuntime
         (Rendered authenticated tokenlessSession None
          :: Rendered status session err
          :: SignOutFulfilled
          :: map (laterEvent status session err) after)) = 1
    /\ signOutPending
         (run initialRuntime
            [Rendered authenticated tokenlessSession None;
             Rendered status session err]) = 1.
Proof.
  intros status session err after.
  set (r1 := run initialRuntime [Rendered authenticated tokenlessSession None]).
  assert (Hg : signingOut r1 = true) by reflexivity.
  destruct (guarded_render status session err r1 Hg) as [Hg2 [Hc2 [Hp2 Hd2]]].
  split.
  - change (run initialRuntime
              (Rendered authenticated tokenlessSession None
               :: Rendered status session err
               :: SignOutFulfilled
               :: map (laterEvent status session err) after))
      with (run (signOutFulfilled (renderHook status session err r1))
                (map (laterEvent status session err) after)).
    rewrite run_unchanged_calls.
    + unfold signOutFulfilled. rewrite Hp2. simpl. exact Hc2.
    + unfold signOutFulfilled. rewrite Hp2. simpl. exact Hd2.
  - change (run initialRuntime
              [Rendered authenticated tokenlessSession None;
               Rendered status session err])
      with (renderHook status session err r1).
    exact Hp2.
Qed.

Lemma first_render_unauthorized (status : SessionStatus) (session : option Session)
      (err : option JS.ErrorObject) :
  isUnauthorized err = true ->
  signingOut (renderHook status session err initialRuntime) = true
  /\ signOutPending (renderHook status session err initialRuntime) = 1
  /\ signOutCalls (renderHook status session err initialRuntime) = 1
  /\ committedDeps (renderHook status session err initialRuntime)
     = Some (depsOf status session err).
Proof.
  intros H. unfold renderHook.
  destruct (adoptToken_keeps session initialRuntime) as [Hg [Hd [Hc Hp]]].
  rewrite Hd. simpl depsChanged. cbv iota.
  unfold reconcileEffect. simpl. rewrite Hg. simpl. rewrite H. simpl.
  rewrite Hc, Hp. repeat split.
Qed.

(** X15. A 401 that the query layer keeps reporting signs out again: once
    the sign-out for it has been fulfilled, the next render whose session
    status or token presence differs issues a second sign-out, whatever the
    session then is. *)
Theorem retained_unauthorized_error_signs_out_again :
  forall (status status' : SessionStatus) (session session' : option Session)
         (err : option JS.ErrorObject),
    isUnauthorized err = true ->
    depsChanged (Some (depsOf status session err)) (depsOf status' session' err) = true ->
    signOutCalls
      (run initialRuntime
         [Rendered status session err; SignOutFulfilled;
          Rendered status' session' err]) = 2.
Proof.
  intros status status' session session' err H401 Hch.
  destruct (first_render_unauthorized status session err H401) as [_ [Hp [Hc Hd]]].
  change (run initialRuntime
            [Rendered status session err; SignOutFulfilled;
             Rendered status' session' err])
    with (renderHook status' session' err
            (signOutFulfilled (renderHook status session err initialRuntime))).
  set (r1 := renderHook status session err initialRuntime) in *.
  assert (Hf : signingOut (signOutFulfilled r1) = false
               /\ committedDeps (signOutFulfilled r1) = Some (depsOf status session err)
               /\ signOutCalls (signOutFulfilled r1) = 1).
  { unfold signOutFulfilled. rewrite Hp. simpl. auto. }
  destruct Hf as [Hg2 [Hd2 Hc2]].
  set (r2 := signOutFulfilled r1) in *.
  unfold renderHook.
  destruct (adoptToken_keeps session' r2) as [Hg3 [Hd3 [Hc3 _]]].
  change {| depError := err; depStatus := status'; depHasToken := hasToken session' |}
    with (depsOf status' session' err).
  rewrite Hd3, Hd2, Hch.
  rewrite reconcileEffect_calls. simpl. rewrite Hg3, Hg2, H401, Hc3, Hc2. reflexivity.
Qed.

(** X15 for a session with a token that is signed out after a 401. *)
Lemma retained_unauthorized_error_witness :
  signOutCalls
    (run initialRuntime
       [Rendered authenticated tokenSession unauthorizedError; SignOutFulfilled;
        Rendered unauthenticated None unauthorizedError]) = 2.
Proof.
  apply (retained_unauthorized_error_signs_out_again
           authenticated unauthenticated tokenSession None unauthorizedError);
    reflexivity.
Defined.

(** * The reconciliation effect, the profile fetch and the login redirect
      stated on the data *)

(** ** The effect *)

Lemma isUnauthorized_iff (err : option JS.ErrorObject) :
  isUnauthorized err = true <-> failedWith401 err.
Proof.
  unfold failedWith401. destruct err as [[n [[code text] | d]]|]; simpl; split.
  - intros H. apply Z.eqb_eq in H. subst code. exists n, text. reflexivity.
  - intros [n' [text' H]]. inversion H. reflexivity.
  - discriminate.
  - intros [n' [text' H]]. discriminate H.
  - discriminate.
  - intros [n' [text' H]]. discriminate H.
Qed.

Lemma hasToken_iff (session : option Session) :
  hasToken session = true <-> tokenPresent session.
Proof.
  unfold tokenPresent. destruct session as [[[[|c rest]|]]|]; simpl; split;
    try discriminate;
    try (intros [c' [rest' H]]; discriminate H).
  - intros _. exists c, rest. reflexivity.
  - reflexivity.
Qed.

(** C3, as stated, fails.  A run of the effect for an unauthenticated session
    with no fetch error fires no action.  A run that sees a 401 and a missing
    token while the sign-out for that 401 is in flight issues none.  A
    session that stays authenticated without a token is signed out twice by
    one hook when the fetch error changes after the first sign-out was
    fulfilled.  Two mounted hooks have two sign-outs in flight at once. *)
Lemma effect_runs_without_signOut :
  issuedBy None unauthenticated false initialRuntime = 0
  /\ signOutPending
       (run initialRuntime [Rendered authenticated tokenSession unauthorizedError]) = 1
  /\ issuedBy unauthorizedError authenticated false
       (run initialRuntime [Rendered authenticated tokenSession unauthorizedError]) = 0
  /\ signOutCalls
       (run initialRuntime
          [Rendered authenticated tokenSession unauthorizedError;
           Rendered authenticated tokenlessSession unauthorizedError]) = 1
  /\ signOutCalls
       (run initialRuntime
          [Rendered authenticated tokenlessSession None;
           SignOutFulfilled;
           Rendered authenticated tokenlessSession networkError]) = 2
  /\ inFlightTotal
       (renderEach authenticated tokenlessSession None
          [initialRuntime; initialRuntime]) = 2.
Proof.
  repeat split.
Qed.

(** C3, amended.  For one mounted hook none of whose sign-outs has failed, a
    run of the effect issues at most one sign-out, and it issues one exactly
    when no sign-out of the hook is in flight and either the profile fetch
    failed with a 401 or the session is authenticated without a token.  One
    mounted hook whose session stays authenticated and whose fetch error
    stays what it was issues at most one sign-out, and exactly one when the
    fetch failed with a 401 or no token is present, so exactly one for a
    session without a token.  One mounted hook never has more than one
    sign-out in flight. *)
Theorem effect_issues_one_signOut_per_cause :
  forall (trace : list Event) (err : option JS.ErrorObject)
         (status : SessionStatus) (hasTok : bool),
    existsb isRejection trace = false ->
    (issuedBy err status hasTok (run initialRuntime trace) = 1
     <-> signOutPending (run initialRuntime trace) = 0
         /\ (failedWith401 err \/ (status = authenticated /\ hasTok = false)))
    /\ issuedBy err status hasTok (run initialRuntime trace) <= 1
    /\ (forall (session : option Session) (after : list Later),
           signOutCalls (run initialRuntime (stays authenticated session err after)) <= 1
           /\ (signOutCalls (run initialRuntime (stays authenticated session err after)) = 1
               <-> failedWith401 err \/ ~ tokenPresent session))
    /\ (forall (after : list Later),
           signOutCalls
             (run initialRuntime (stays authenticated tokenlessSession err after)) = 1)
    /\ (forall any : list Event, signOutPending (run initialRuntime any) <= 1).
Proof.
  intros trace err status hasTok Hcalm.
  assert (Hexact : guardExact (run initialRuntime trace)).
  { apply run_guardExact; [exact Hcalm | reflexivity]. }
  unfold guardExact in Hexact.
  assert (Hissued : issuedBy err status hasTok (run initialRuntime trace)
                    = if signingOut (run initialRuntime trace) then 0
                      else if isUnauthorized err
                              || (SessionStatus_eqb status authenticated && negb hasTok)
                           then 1 else 0).
  { unfold issuedBy. rewrite reconcileEffect_calls.
    destruct (signingOut (run initialRuntime trace)); [lia|].
    destruct (isUnauthorized err || _); lia. }
  split; [|split; [|split; [|split]]].
  - rewrite Hissued, Hexact.
    destruct (signingOut (run initialRuntime trace)).
    + split; [discriminate | intros [H _]; discriminate H].
    + destruct (isUnauthorized err) eqn:H401; simpl.
      * split; [|reflexivity]. intros _. split; [reflexivity|].
        left. apply isUnauthorized_iff. exact H401.
      * destruct (SessionStatus_eqb status authenticated) eqn:Hs;
          destruct hasTok; simpl; split; try discriminate; try reflexivity.
        -- intros [_ [H | [_ H]]]; [|discriminate H].
           apply isUnauthorized_iff in H. congruence.
        -- intros _. split; [reflexivity|]. right.
           split; [apply SessionStatus_eqb_eq; exact Hs | reflexivity].
        -- intros [_ [H | [_ H]]]; [|discriminate H].
           apply isUnauthorized_iff in H. congruence.
        -- intros [_ [H | [H _]]].
           ++ apply isUnauthorized_iff in H. congruence.
           ++ apply SessionStatus_eqb_eq in H. congruence.
  - rewrite Hissued.
    destruct (signingOut (run initialRuntime trace)); [lia|].
    destruct (isUnauthorized err || _); lia.
  - intros session after. rewrite stays_calls. simpl.
    destruct (isUnauthorized err) eqn:H401; simpl.
    + split; [lia|]. split; [|reflexivity]. intros _.
      left. apply isUnauthorized_iff. exact H401.
    + destruct (hasToken session) eqn:Ht; simpl.
      * split; [lia|]. split; [discriminate|].
        intros [H | H].
        -- apply isUnauthorized_iff in H. congruence.
        -- exfalso. apply H. apply hasToken_iff. exact Ht.
      * split; [lia|]. split; [|reflexivity]. intros _. right.
        intros H. apply hasToken_iff in H. congruence.
  - intros after. rewrite stays_calls. simpl.
    destruct (isUnauthorized err); reflexivity.
  - intros any.
    destruct (run_singleFlight any _ initialRuntime_singleFlight) as [Hle _].
    exact Hle.
Qed.

(** The amended C3 at a run that sees a 401 and a missing token while the
    sign-out for that 401 is in flight. *)
Lemma effect_issues_one_signOut_per_cause_witness :
  (issuedBy unauthorizedError authenticated false
     (run initialRuntime [Rendered authenticated tokenSession unauthorizedError]) = 1
   <-> signOutPending
         (run initialRuntime [Rendered authenticated tokenSession unauthorizedError]) = 0
       /\ (failedWith401 unauthorizedError
           \/ (authenticated = authenticated /\ false = false)))
  /\ issuedBy unauthorizedError authenticated false
       (run initialRuntime [Rendered authenticated tokenSession unauthorizedError]) <= 1.
Proof.
  destruct (effect_issues_one_signOut_per_cause
              [Rendered authenticated tokenSession unauthorizedError]
              unauthorizedError authenticated false) as [H1 [H2 _]].
  - reflexivity.
  - split; [exact H1 | exact H2].
Defined.

(** ** The profile fetch *)

Lemma attempt_without_retry {T : Type} (answers : list (QueryLayer.Answer T)) (made : nat) :
  QueryLayer.calls (QueryLayer.attempt false answers made) = S made.
Proof.
  destruct answers as [|[profile | err] later]; reflexivity.
Qed.

(** C4. The profile fetch is enabled exactly when the session status is
    authenticated and the session carries a non-empty access token, so it is
    enabled for every authenticated session with a token.  Whatever the
    backend would answer, the fetch function is never called for a session
    that is not authenticated or carries no token, and the query then stays
    not fetched; for an authenticated session with a token it is called
    once, and a failure is the result: it is not called again. *)
Theorem profile_fetch_only_with_token_and_never_retried :
  forall (T : Type) (status : SessionStatus) (session : option Session)
         (answers : list (QueryLayer.Answer T)),
    (Query.enabled (userQuery status session) = true
     <-> status = authenticated /\ tokenPresent session)
    /\ (forall (c : ascii) (rest : string),
           Query.enabled
             (userQuery authenticated (Some {| accessToken := Some (String c rest) |}))
           = true)
    /\ (QueryLayer.calls (QueryLayer.observe (userQuery status session) answers) = 0
        <-> ~ (status = authenticated /\ tokenPresent session))
    /\ (QueryLayer.calls (QueryLayer.observe (userQuery status session) answers) = 1
        <-> status = authenticated /\ tokenPresent session)
    /\ QueryLayer.observe (userQuery authenticated tokenlessSession) answers
       = {| QueryLayer.calls := 0; QueryLayer.result := QueryLayer.notFetched |}
    /\ (forall (c : ascii) (rest : string) (err : JS.ErrorObject)
               (later : list (QueryLayer.Answer T)),
           QueryLayer.observe
             (userQuery authenticated (Some {| accessToken := Some (String c rest) |}))
             (QueryLayer.Failed err :: later)
           = {| QueryLayer.calls := 1; QueryLayer.result := QueryLayer.failed err |}).
Proof.
  intros T status session answers.
  assert (Henabled : Query.enabled (userQuery status session) = true
                     <-> status = authenticated /\ tokenPresent session).
  { simpl. rewrite andb_true_iff, SessionStatus_eqb_eq, hasToken_iff. reflexivity. }
  split; [exact Henabled|].
  split; [reflexivity|].
  assert (Hcalls : QueryLayer.calls (QueryLayer.observe (userQuery status session) answers)
                   = if Query.enabled (userQuery status session) then 1 else 0).
  { unfold QueryLayer.observe.
    destruct (Query.enabled (userQuery status session)); [|reflexivity].
    change (Query.retry (userQuery status session)) with false.
    apply attempt_without_retry. }
  split; [|split; [|split]].
  - rewrite Hcalls.
    destruct (Query.enabled (userQuery status session)) eqn:He.
    + split; [discriminate|]. intros H. exfalso. apply H. apply Henabled. reflexivity.
    + split; [|reflexivity]. intros _ H. apply Henabled in H. discriminate H.
  - rewrite Hcalls.
    destruct (Query.enabled (userQuery status session)) eqn:He.
    + split; [|reflexivity]. intros _. apply Henabled. reflexivity.
    + split; [discriminate|]. intros H. apply Henabled in H. discriminate H.
  - reflexivity.
  - intros c rest err later. reflexivity.
Qed.

(** ** The login redirect *)

Lemma forallb_weaken {A : Type} (P Q : A -> bool) (l : list A) :
  (forall x, P x = true -> Q x = true) ->
  forallb P l = true -> forallb Q l = true.
Proof.
  intros HPQ. induction l as [|x l IH]; simpl; [reflexivity|].
  intros H. apply andb_true_iff in H. destruct H as [Hx Hl].
  rewrite (HPQ x Hx), (IH Hl). reflexivity.
Qed.

Lemma dropLeading_id (s : string) :
  forallb (fun c => negb (URL.c0OrSpace c)) (list_ascii_of_string s) = true ->
  URL.dropLeading s = s.
Proof.
  destruct s as [|c rest]; [reflexivity|].
  cbn [list_ascii_of_string forallb URL.dropLeading]. intros H.
  apply andb_true_iff in H. destruct H as [Hc _].
  apply negb_true_iff in Hc. rewrite Hc. reflexivity.
Qed.

Lemma dropTrailing_id (s : string) :
  forallb (fun c => negb (URL.c0OrSpace c)) (list_ascii_of_string s) = true ->
  URL.dropTrailing s = s.
Proof.
  induction s as [|c rest IH]; [reflexivity|].
  cbn [list_ascii_of_string forallb URL.dropTrailing]. intros H.
  apply andb_true_iff in H. destruct H as [Hc Hrest].
  apply negb_true_iff in Hc. rewrite (IH Hrest), Hc.
  destruct rest; reflexivity.
Qed.

Lemma tabOrNewline_is_c0 (c : ascii) :
  URL.c0OrSpace c = false -> URL.tabOrNewline c = false.
Proof.
  destruct c as [[] [] [] [] [] [] [] []]; intros H; try reflexivity; discriminate H.
Qed.

Lemma removeTabNewline_id (s : string) :
  forallb (fun c => negb (URL.c0OrSpace c)) (list_ascii_of_string s) = true ->
  URL.removeTabNewline s = s.
Proof.
  induction s as [|c rest IH]; [reflexivity|].
  cbn [list_ascii_of_string forallb URL.removeTabNewline]. intros H.
  apply andb_true_iff in H. destruct H as [Hc Hrest].
  apply negb_true_iff in Hc.
  rewrite (tabOrNewline_is_c0 c Hc), (IH Hrest). reflexivity.
Qed.

Lemma preprocess_id (s : string) :
  forallb (fun c => negb (URL.c0OrSpace c)) (list_ascii_of_string s) = true ->
  URL.preprocess s = s.
Proof.
  intros H. unfold URL.preprocess.
  rewrite (dropLeading_id s H), (dropTrailing_id s H). apply removeTabNewline_id. exact H.
Qed.

Lemma beforeChar_absent (d : ascii) (s : string) :
  forallb (fun c => negb (Ascii.eqb c d)) (list_ascii_of_string s) = true ->
  URL.beforeChar d s = s.
Proof.
  induction s as [|c rest IH]; [reflexivity|].
  cbn [list_ascii_of_string forallb URL.beforeChar]. intros H.
  apply andb_true_iff in H. destruct H as [Hc Hrest].
  apply negb_true_iff in Hc. rewrite Hc, (IH Hrest). reflexivity.
Qed.

Lemma splitOn_absent (d : ascii) (s : string) :
  forallb (fun c => negb (Ascii.eqb c d)) (list_ascii_of_string s) = true ->
  URL.splitOn d s = [s].
Proof.
  induction s as [|c rest IH]; [reflexivity|].
  cbn [list_ascii_of_string forallb URL.splitOn]. intros H.
  apply andb_true_iff in H. destruct H as [Hc Hrest].
  apply negb_true_iff in Hc. rewrite Hc, (IH Hrest). reflexivity.
Qed.

Lemma formDecode_plain (s : string) :
  forallb (fun c => negb (Ascii.eqb c "+") && negb (Ascii.eqb c "%"))
          (list_ascii_of_string s) = true ->
  URL.formDecode s = s.
Proof.
  induction s as [|c rest IH]; [reflexivity|].
  cbn [list_ascii_of_string forallb URL.formDecode]. intros H.
  apply andb_true_iff in H. destruct H as [Hc Hrest].
  apply andb_true_iff in Hc. destruct Hc as [Hplus Hpercent].
  apply negb_true_iff in Hplus, Hpercent.
  rewrite Hplus, Hpercent, (IH Hrest). reflexivity.
Qed.

Lemma unreserved_not_plus (c : ascii) :
  URI.unreserved c = true -> Ascii.eqb c "+" = false.
Proof.
  intros H. destruct (Ascii.eqb_spec c "+"%char) as [E|E]; [|reflexivity].
  subst c. discriminate H.
Qed.

(** Reading a query value gives back what [encodeURIComponent] was given. *)
Lemma formDecode_encodeURIComponent (s : string) :
  URL.formDecode (URI.encodeURIComponent s) = s.
Proof.
  induction s as [|c s IH]; [reflexivity|].
  cbn [URI.encodeURIComponent].
  destruct (URI.unreserved c) eqn:Hu.
  - cbn [URL.formDecode].
    rewrite (unreserved_not_plus c Hu), (unreserved_not_percent c Hu), IH. reflexivity.
  - unfold URI.escape. cbn [URL.formDecode].
    change (Ascii.eqb "%" "+") with false. change (Ascii.eqb "%" "%") with true.
    cbv iota. rewrite hexValue_high, hexValue_low, IH, byte_of_digits. reflexivity.
Qed.

(** [encodeURIComponent] produces unreserved characters and [%] only. *)
Lemma encodeURIComponent_characters (s : string) :
  forallb (fun c => URI.unreserved c || Ascii.eqb c "%")
          (list_ascii_of_string (URI.encodeURIComponent s)) = true.
Proof.
  induction s as [|c s IH]; [reflexivity|].
  cbn [URI.encodeURIComponent].
  destruct (URI.unreserved c) eqn:Hu.
  - cbn [list_ascii_of_string forallb]. rewrite Hu, IH. reflexivity.
  - unfold URI.escape. cbn [list_ascii_of_string forallb].
    rewrite hexDigit_high_unreserved, hexDigit_low_unreserved, IH. reflexivity.
Qed.

Lemma escaped_is_plain_enough (c : ascii) :
  URI.unreserved c || Ascii.eqb c "%" = true ->
  negb (URL.c0OrSpace c) = true
  /\ negb (Ascii.eqb c "#") = true
  /\ negb (Ascii.eqb c "&") = true.
Proof.
  destruct c as [[] [] [] [] [] [] [] []]; intros H;
    try (repeat split; reflexivity); discriminate H.
Qed.

Lemma plainInQuery_facts (c : ascii) :
  plainInQuery c = true ->
  negb (URL.c0OrSpace c) = true
  /\ negb (Ascii.eqb c "#") = true
  /\ negb (Ascii.eqb c "&") = true
  /\ negb (Ascii.eqb c "+") && negb (Ascii.eqb c "%") = true.
Proof.
  destruct c as [[] [] [] [] [] [] [] []]; intros H;
    try (repeat split; reflexivity); discriminate H.
Qed.

(** The login page reads the whole invite link back from [callbackUrl],
    whatever the link is. *)
Lemma login_reads_callback (link : string) :
  URL.searchParamsGet "callbackUrl"
    ("/login?callbackUrl=" ++ URI.encodeURIComponent link) = Some link.
Proof.
  pose proof (encodeURIComponent_characters link) as Hv.
  pose proof (formDecode_encodeURIComponent link) as Hd.
  set (v := URI.encodeURIComponent link) in *.
  assert (Hblank : forallb (fun c => negb (URL.c0OrSpace c)) (list_ascii_of_string v) = true).
  { apply (forallb_weaken _ _ _ (fun c H => proj1 (escaped_is_plain_enough c H)) Hv). }
  assert (Hhash : forallb (fun c => negb (Ascii.eqb c "#")) (list_ascii_of_string v) = true).
  { apply (forallb_weaken _ _ _
             (fun c H => proj1 (proj2 (escaped_is_plain_enough c H))) Hv). }
  assert (Hamp : forallb (fun c => negb (Ascii.eqb c "&")) (list_ascii_of_string v) = true).
  { apply (forallb_weaken _ _ _
             (fun c H => proj2 (proj2 (escaped_is_plain_enough c H))) Hv). }
  unfold URL.searchParamsGet, URL.query.
  rewrite preprocess_id by exact Hblank.
  rewrite beforeChar_absent by exact Hhash.
  change (URL.afterChar "?" ("/login?callbackUrl=" ++ v)) with (Some ("callbackUrl=" ++ v)).
  cbv iota beta.
  rewrite splitOn_absent by exact Hamp.
  change (filter URL.nonEmpty ["callbackUrl=" ++ v]) with ["callbackUrl=" ++ v].
  cbn [map]. unfold URL.pairOf.
  change (URL.beforeChar "=" ("callbackUrl=" ++ v)) with "callbackUrl".
  change (URL.afterChar "=" ("callbackUrl=" ++ v)) with (Some v).
  cbv iota beta.
  change (URL.formDecode "callbackUrl") with "callbackUrl".
  rewrite Hd. reflexivity.
Qed.

(** The invite page reads a token of plain characters back from the link. *)
Lemma invite_reads_plain_token (token : string) :
  forallb plainInQuery (list_ascii_of_string token) = true ->
  URL.searchParamsGet "token" (callbackLink token) = Some token.
Proof.
  intros Hv. unfold callbackLink.
  assert (Hblank : forallb (fun c => negb (URL.c0OrSpace c))
                           (list_ascii_of_string token) = true).
  { apply (forallb_weaken _ _ _ (fun c H => proj1 (plainInQuery_facts c H)) Hv). }
  assert (Hhash : forallb (fun c => negb (Ascii.eqb c "#"))
                          (list_ascii_of_string token) = true).
  { apply (forallb_weaken _ _ _
             (fun c H => proj1 (proj2 (plainInQuery_facts c H))) Hv). }
  assert (Hamp : forallb (fun c => negb (Ascii.eqb c "&"))
                         (list_ascii_of_string token) = true).
  { apply (forallb_weaken _ _ _
             (fun c H => proj1 (proj2 (proj2 (plainInQuery_facts c H)))) Hv). }
  assert (Hdec : URL.formDecode token = token).
  { apply formDecode_plain.
    apply (forallb_weaken _ _ _
             (fun c H => proj2 (proj2 (proj2 (plainInQuery_facts c H)))) Hv). }
  unfold URL.searchParamsGet, URL.query.
  rewrite preprocess_id by exact Hblank.
  rewrite beforeChar_absent by exact Hhash.
  change (URL.afterChar "?" ("/invite?token=" ++ token)) with (Some ("token=" ++ token)).
  cbv iota beta.
  rewrite splitOn_absent by exact Hamp.
  change (filter URL.nonEmpty ["token=" ++ token]) with ["token=" ++ token].
  cbn [map]. unfold URL.pairOf.
  change (URL.beforeChar "=" ("token=" ++ token)) with "token".
  change (URL.afterChar "=" ("token=" ++ token)) with (Some token).
  cbv iota beta.
  change (URL.formDecode "token") with "token".
  rewrite Hdec. reflexivity.
Qed.

(** The effect puts the token into the link as it is, without escaping it:
    a token with [&], [#], [+], [%XY], a newline or a space at its end is
    handed on in full to the login page inside the link, but the invite page
    reads another token from that link.  The token a b&c is what the page
    reads at /invite?token=a+b%26c. *)
Lemma unescaped_token_is_not_read_back :
  URL.searchParamsGet "token" "/invite?token=a+b%26c" = Some "a b&c"
  /\ Invite.redirectEffect (Some "a b&c") unauthenticated
     = [Invite.RouterReplace "/login?callbackUrl=%2Finvite%3Ftoken%3Da%20b%26c"]
  /\ URL.searchParamsGet "callbackUrl" "/login?callbackUrl=%2Finvite%3Ftoken%3Da%20b%26c"
     = Some (callbackLink "a b&c")
  /\ URL.searchParamsGet "token" (callbackLink "a b&c") = Some "a b"
  /\ URL.searchParamsGet "token" (callbackLink "a#b") = Some "a"
  /\ URL.searchParamsGet "token" (callbackLink "a+b") = Some "a b"
  /\ URL.searchParamsGet "token" (callbackLink "%41") = Some "A"
  /\ URL.searchParamsGet "token" (callbackLink "ab ") = Some "ab"
  /\ URL.searchParamsGet "token" (callbackLink (String "a" (String "010" "b")))
     = Some "ab".
Proof.
  repeat split.
Qed.

(** C6, amended.  With a non-empty token of plain characters (no control
    character, no space, none of [& # + %]) and an unauthenticated session,
    the page redirects to the login page with a callbackUrl parameter that
    encodes the invite link with its token: the target's path is /login, the
    login page reads from callbackUrl the link /invite?token= followed by the
    token, and the invite page reads the token back from that link.  For the
    token abc123 the target is exactly
    /login?callbackUrl=%2Finvite%3Ftoken%3Dabc123. *)
Theorem invite_token_survives_login_redirect :
  forall (c : ascii) (rest : string),
    forallb plainInQuery (list_ascii_of_string (String c rest)) = true ->
    (exists target,
        Invite.redirectEffect (Some (String c rest)) unauthenticated
        = [Invite.RouterReplace target]
        /\ URL.beforeChar "?" target = "/login"
        /\ URL.searchParamsGet "callbackUrl" target = Some (callbackLink (String c rest))
        /\ URL.beforeChar "?" (callbackLink (String c rest)) = "/invite"
        /\ URL.searchParamsGet "token" (callbackLink (String c rest))
           = Some (String c rest))
    /\ Invite.redirectEffect (Some "abc123") unauthenticated
       = [Invite.RouterReplace "/login?callbackUrl=%2Finvite%3Ftoken%3Dabc123"].
Proof.
  intros c rest Hplain. split; [|reflexivity].
  exists ("/login?callbackUrl=" ++ URI.encodeURIComponent (callbackLink (String c rest))).
  split; [reflexivity|].
  split; [reflexivity|].
  split; [apply login_reads_callback|].
  split; [reflexivity|].
  apply invite_reads_plain_token. exact Hplain.
Qed.

(** The amended C6 at a token with marks that a query leaves alone. *)
Lemma invite_token_survives_login_redirect_witness :
  (exists target,
      Invite.redirectEffect (Some "Zk3:x=9/~Q") unauthenticated
      = [Invite.RouterReplace target]
      /\ URL.beforeChar "?" target = "/login"
      /\ URL.searchParamsGet "callbackUrl" target = Some (callbackLink "Zk3:x=9/~Q")
      /\ URL.beforeChar "?" (callbackLink "Zk3:x=9/~Q") = "/invite"
      /\ URL.searchParamsGet "token" (callbackLink "Zk3:x=9/~Q") = Some "Zk3:x=9/~Q")
  /\ Invite.redirectEffect (Some "abc123") unauthenticated
     = [Invite.RouterReplace "/login?callbackUrl=%2Finvite%3Ftoken%3Dabc123"].
Proof.
  apply (invite_token_survives_login_redirect "Z" "k3:x=9/~Q"). reflexivity.
Defined.
